(** * Discord_AI: the sliding-window limiter, the AI dispatcher and the
      ingress gate of [src/DiscordAI/main.py]

    The development embeds these functions of [main.py]:
    - [check_spam] (lines 101-108), the per-key sliding-window check;
    - [ai_command] (lines 173-239), the dispatcher of the [/ai] command;
    - [on_message] (lines 127-171), the ingress gate;
    - [get_or_create_logs_channel], [on_guild_join] and [logs_command]
      (lines 77-99, 122-125, 241-253);
    - the status lines of [info_command] (lines 264-274) and
      [on_command_error] (lines 288-299).

    Conventions of the embedding.
    - A Python [str] is the list of its code points, so that [len] is
      [length] and a slice is a [take] of a [drop].
    - [time.time()] readings are rationals.  Every binary64 float is a
      rational, and the only arithmetic the code performs on readings is
      [now - t] on two epoch times, which binary64 computes exactly for
      readings within a factor of two of each other, that is, for every
      clock that is not within a window's length of 1970.
    - The module-level dictionaries [user_message_times] and
      [user_ai_times] are finite maps threaded through the handlers;
      a missing key reads as the empty list, as [defaultdict(list)] does.
    - The coroutines are functions from the state before to the state after
      together with the list of calls made on the platform, the backends and
      the logger, in program order.  What the outside world answers (the
      backend's reply, the logs channel found or not) is read from a [world]
      record.
    - The [ctx] of a hybrid command is a [discord.ext.commands.Context]:
      [ctx.send] and [ctx.defer] exist and are recorded when they are
      called; [ctx.followup] does not exist, and evaluating it raises
      [AttributeError].  The other exceptions of the model are the one a
      backend call raises and the one a post to the logs channel raises.
      An exception that is not caught ends the handler; it is recorded last,
      as [Escapes]. *)

From Stdlib Require Import ZArith QArith Lqa List Sorted Lia Bool Ascii String.
From stdpp Require Import gmap list.
Import ListNotations.

(** ** Python values *)

Module Py.

Definition char := N.
Definition str := list char.

(** An ASCII literal as a [str]. *)
Definition lit (s : string) : str :=
  List.map N_of_ascii (list_ascii_of_string s).

Definition is_upper (c : char) : bool := ((65 <=? c) && (c <=? 90))%N.
Definition is_lower (c : char) : bool := ((97 <=? c) && (c <=? 122))%N.

Definition to_lower (c : char) : char := if is_upper c then (c + 32)%N else c.
Definition to_upper (c : char) : char := if is_lower c then (c - 32)%N else c.

(** [str.lower()].  Only the ASCII case mapping is modelled; the two
    selectors the dispatcher compares against are ASCII and no code point
    outside ASCII lowercases to one of their letters. *)
Definition lower (s : str) : str := List.map to_lower s.

(** [str.title()] on the ASCII letters: a letter that follows a letter is
    lowercased, any other letter is uppercased. *)
Fixpoint title_from (prev_cased : bool) (s : str) : str :=
  match s with
  | [] => []
  | c :: r =>
      if is_lower c || is_upper c
      then (if prev_cased then to_lower c else to_upper c) :: title_from true r
      else c :: title_from false r
  end.

Definition title (s : str) : str := title_from false s.

(** [s[i:j]] for [0 <= i <= j]. *)
Definition slice (s : str) (i j : nat) : str := take (j - i) (drop i s).

(** [range(start, stop, step)] for a positive [step]; [fuel] bounds the
    number of elements. *)
Fixpoint range_from (fuel start stop step : nat) : list nat :=
  match fuel with
  | O => []
  | S fuel' =>
      if start <? stop
      then start :: range_from fuel' (start + step) stop step
      else []
  end.

Definition range (start stop step : nat) : list nat :=
  range_from stop start stop step.

(** ["\n".join(parts)] *)
Fixpoint join_lines (parts : list str) : str :=
  match parts with
  | [] => []
  | [p] => p
  | p :: rest => p ++ [10%N] ++ join_lines rest
  end.

End Py.

(** ** The sliding-window limiter *)

Module Limiter.

(** The float comparison [x < y]. *)
Definition Qltb (x y : Q) : bool := negb (Qle_bool y x).

(** [check_spam(user_id, message_times_dict, time_window, message_limit)]
    with the reading [now] of [time.time()].  The list stored under
    [user_id] is filtered in place and extended, so the dictionary entry
    is the new list; the result is [len(user_times) > message_limit]. *)
Definition check_spam (user_id : Z) (message_times_dict : gmap Z (list Q))
    (time_window : Q) (message_limit : Z) (now : Q)
  : bool * gmap Z (list Q) :=
  let user_times := default [] (message_times_dict !! user_id) in
  let user_times :=
    List.filter (fun t => Qltb (now - t) time_window) user_times ++ [now] in
  ((message_limit <? Z.of_nat (length user_times))%Z,
   <[user_id := user_times]> message_times_dict).

(** A history of checks against one dictionary with fixed parameters, as
    each of the two call sites produces: every call is a key and a clock
    reading.  The answer recorded for a call is whether it was admitted,
    that is, whether [check_spam] returned [False]. *)
Fixpoint run_checks (time_window : Q) (message_limit : Z)
    (d : gmap Z (list Q)) (calls : list (Z * Q))
  : list (Z * bool) * gmap Z (list Q) :=
  match calls with
  | [] => ([], d)
  | (user_id, now) :: rest =>
      let '(spam, d') := check_spam user_id d time_window message_limit now in
      let '(answers, d'') := run_checks time_window message_limit d' rest in
      ((user_id, negb spam) :: answers, d'')
  end.

(** The answers given to one key, in call order. *)
Definition answers_for (user_id : Z) (answers : list (Z * bool)) : list bool :=
  List.map snd (List.filter (fun a => Z.eqb (fst a) user_id) answers).

(** Clock readings that never run backwards, starting at or after [t0]. *)
Fixpoint chronological (t0 : Q) (calls : list (Z * Q)) : Prop :=
  match calls with
  | [] => True
  | (_, t) :: rest => (t0 <= t)%Q /\ chronological t rest
  end.

End Limiter.

(** ** The bot: configuration, state, and the two handlers *)

Module Bot.
Import Py Limiter.

(** Anti-spam configuration (lines 68-75). *)
Definition SPAM_TIME_WINDOW : Q := 10.
Definition SPAM_MESSAGE_LIMIT : Z := 5.
Definition AI_TIME_WINDOW : Q := 60.
Definition AI_MESSAGE_LIMIT : Z := 3.

(** The two process-wide dictionaries. *)
Record bot_state := {
  user_message_times : gmap Z (list Q);
  user_ai_times : gmap Z (list Q)
}.

Definition initial_state : bot_state :=
  {| user_message_times := ∅; user_ai_times := ∅ |}.

(** What a backend call does: it returns a text, or it raises and
    [str(e)] is the message. *)
Inductive backend_outcome :=
| Returned (text : str)
| Raised (message : str).

Inductive send_outcome :=
| Sent
| Forbidden
| SendFailed (message : str).

Record guild := { guild_id : Z; guild_name : str }.

(** The part of a [discord.Message] that [on_message] reads. *)
Record message := {
  author_bot : bool;
  author_id : Z;
  message_guild : option guild;
  content : str;
  attachments : list str
}.

(** The part of the embed built at lines 146-163 that depends on the
    message text and its attachments. *)
Record embed := {
  description : str;
  attachments_field : option str
}.

(** The environment and the outside world: the two credentials read at
    start-up, the answer of each backend to a prompt, the logs channel of
    a guild and the fate of a post to it. *)
Record world := {
  OPENAI_API_KEY : option str;
  GEMINI_API_KEY : option str;
  openai_create : str -> backend_outcome;
  gemini_generate : str -> backend_outcome;
  logs_channel : guild -> option Z;
  log_channel_send : Z -> embed -> send_outcome
}.

(** Truth value of an optional string: [None] and [""] are false. *)
Definition truthy (v : option str) : bool :=
  match v with
  | Some (_ :: _) => true
  | _ => false
  end.

(** Lines 45-47: the client exists iff the key is set; it is modelled by
    the key it holds. *)
Definition openai_client (w : world) : option str :=
  if truthy (OPENAI_API_KEY w) then OPENAI_API_KEY w else None.

(** Calls made by the handlers, in program order.  [Escapes e], always
    last, says that the handler did not return: it raised the exception
    whose [str] is [e]. *)
Inductive event :=
| CtxSend (text : str) (ephemeral : bool)
| CtxDefer
| OpenAICreate (model : str) (prompt : str) (max_tokens : Z)
| GeminiGenerate (model : str) (prompt : str)
| FollowupSend (text : str)
| LoggerError (text : str)
| LoggerWarning (text : str)
| MessageReply (text : str) (delete_after : Z)
| GetOrCreateLogsChannel (g : guild)
| LogChannelSend (channel : Z) (e : embed)
| ProcessCommands (m : message)
| Escapes (exception : str).

(** What a block of statements did: the calls it made, and the [str] of
    the exception that ended it, if one did. *)
Definition block : Type := list event * option str.

(** [str(e)] of the [AttributeError] that evaluating [ctx.followup] raises:
    a [commands.Context] has no such attribute. *)
Definition no_followup : str :=
  lit "'Context' object has no attribute 'followup'".

(** [await ctx.followup.send(text)].  The attribute is looked up before
    the argument is built and before anything is sent, so no call is
    made. *)
Definition followup_send (text : str) : block := ([], Some no_followup).

(** [for i in cuts: body(i)], ended by the first exception. *)
Fixpoint for_each (body : nat -> block) (cuts : list nat) : block :=
  match cuts with
  | [] => ([], None)
  | i :: rest =>
      match body i with
      | (calls, Some e) => (calls, Some e)
      | (calls, None) =>
          let '(calls', raised) := for_each body rest in
          (calls ++ calls', raised)
      end
  end.

(** The prefix [f"🤖 **{ai_model.title()}**: "] of lines 231 and 235. *)
Definition answer_prefix (ai_model : str) : str :=
  [129302%N] ++ lit " **" ++ title ai_model ++ lit "**: ".

(** Lines 225-235: the statements that are to send a returned text. *)
Definition send_response (ai_model ai_response : str) : block :=
  if 2000 <? length ai_response
  then
    for_each
      (fun i =>
         let chunk := slice ai_response i (i + 1900) in
         if i =? 0
         then followup_send (answer_prefix ai_model ++ chunk)
         else followup_send chunk)
      (range 0 (length ai_response) 1900)
  else followup_send (answer_prefix ai_model ++ ai_response).

(** Lines 237-239: the handler of an exception [e] raised in the [try].
    An exception raised in the handler itself is not caught. *)
Definition report_failure (ai_model e : str) : block :=
  let '(calls, raised) :=
    followup_send
      ([9888%N; 65039%N] ++ lit " Error communicating with "
         ++ title ai_model ++ lit ": " ++ take 100 e) in
  (LoggerError (lit "AI request error: " ++ e) :: calls, raised).

(** Lines 205-239: the [try] statement with its handler. *)
Definition try_backend (w : world) (ai_model prompt : str) : block :=
  let '(calls, raised) :=
    if bool_decide (ai_model = lit "chatgpt")
    then
      match openai_create w prompt with
      | Returned ai_response =>
          let '(sends, raised) := send_response ai_model ai_response in
          (OpenAICreate (lit "gpt-4o-mini") prompt 1000 :: sends, raised)
      | Raised e => ([OpenAICreate (lit "gpt-4o-mini") prompt 1000], Some e)
      end
    else if bool_decide (ai_model = lit "gemini")
    then
      match gemini_generate w prompt with
      | Returned ai_response =>
          let '(sends, raised) := send_response ai_model ai_response in
          (GeminiGenerate (lit "gemini-1.5-flash") prompt :: sends, raised)
      | Raised e => ([GeminiGenerate (lit "gemini-1.5-flash") prompt], Some e)
      end
    else
      ([], Some (lit "cannot access local variable 'ai_response' where it is not associated with a value"))
  in
  match raised with
  | None => (calls, None)
  | Some e =>
      let '(handled, raised') := report_failure ai_model e in
      (calls ++ handled, raised')
  end.

(** [ai_command(ctx, ai_model, prompt)] for the author [author_id], with
    [now] the reading [check_spam] takes when it is reached. *)
Definition ai_command (w : world) (author_id : Z) (ai_model prompt : str)
    (now : Q) (st : bot_state) : bot_state * list event :=
  let ai_model := lower ai_model in
  if negb (bool_decide (ai_model ∈ [lit "chatgpt"; lit "gemini"]))
  then
    (st, [CtxSend ([10060%N] ++ lit " Invalid AI model. Use `chatgpt` or `gemini`.") true])
  else
    let '(spam, times) :=
      check_spam author_id (user_ai_times st) AI_TIME_WINDOW AI_MESSAGE_LIMIT now in
    let st :=
      {| user_message_times := user_message_times st; user_ai_times := times |} in
    if spam
    then
      (st, [CtxSend ([128683%N] ++ lit " You're making too many AI requests. Please wait a minute.") true])
    else if bool_decide (ai_model = lit "chatgpt")
            && negb (bool_decide (is_Some (openai_client w)))
    then
      (st, [CtxSend ([10060%N] ++ lit " ChatGPT is not available (API key missing).") true])
    else if bool_decide (ai_model = lit "gemini")
            && negb (truthy (GEMINI_API_KEY w))
    then
      (st, [CtxSend ([10060%N] ++ lit " Gemini is not available (API key missing).") true])
    else
      let '(calls, raised) := try_backend w ai_model prompt in
      (st,
       CtxDefer :: calls ++
       match raised with
       | Some e => [Escapes e]
       | None => []
       end).

(** Lines 146-163. *)
Definition log_embed (m : message) : embed :=
  {| description :=
       match content m with
       | [] => lit "*[No text content]*"
       | _ => slice (content m) 0 1900
       end;
     attachments_field :=
       match attachments m with
       | [] => None
       | names => Some (join_lines names)
       end |}.

(** [on_message(message)], with [now] the reading [check_spam] takes when
    it is reached. *)
Definition on_message (w : world) (m : message) (now : Q) (st : bot_state)
  : bot_state * list event :=
  if author_bot m
  then (st, [])
  else
    let '(spam, times) :=
      check_spam (author_id m) (user_message_times st)
        SPAM_TIME_WINDOW SPAM_MESSAGE_LIMIT now in
    let st :=
      {| user_message_times := times; user_ai_times := user_ai_times st |} in
    if spam
    then
      (st, [MessageReply ([128683%N] ++ lit " Slow down! You're sending messages too quickly.") 5])
    else
      (st,
       match message_guild m with
       | Some g =>
           GetOrCreateLogsChannel g ::
           match logs_channel w g with
           | Some log_channel =>
               LogChannelSend log_channel (log_embed m) ::
               match log_channel_send w log_channel (log_embed m) with
               | Sent => []
               | Forbidden =>
                   [LoggerWarning
                      (lit "No permission to send to logs channel in " ++ guild_name g)]
               | SendFailed e =>
                   [LoggerError (lit "Error logging message: " ++ e)]
               end
           | None => []
           end
       | None => []
       end ++ [ProcessCommands m]).

(** The texts of the follow-up messages that went out in a run, in
    order. *)
Definition followups (tr : list event) : list str :=
  omap (fun e => match e with FollowupSend t => Some t | _ => None end) tr.

(** Whether a call reaches a backend over the network. *)
Definition is_backend_call (e : event) : bool :=
  match e with
  | OpenAICreate _ _ _ | GeminiGenerate _ _ => true
  | _ => false
  end.

(** Whether a call belongs to the audit log or hands the message to the
    command router. *)
Definition is_downstream (e : event) : bool :=
  match e with
  | GetOrCreateLogsChannel _ | LogChannelSend _ _ | ProcessCommands _ => true
  | _ => false
  end.

End Bot.

(** ** Vocabulary of the properties *)

Module Props.
Import Py Limiter Bot.

#[global] Instance Qle_decision (x y : Q) : Decision (x <= y)%Q.
Proof.
  destruct (Qlt_le_dec y x) as [H | H]; [right | left; exact H].
  apply Qlt_not_le, H.
Defined.

#[global] Instance Qlt_decision (x y : Q) : Decision (x < y)%Q.
Proof.
  destruct (Qlt_le_dec x y) as [H | H]; [left; exact H | right].
  apply Qle_not_lt, H.
Defined.


(** The span of [W] seconds that starts at [s0]. *)
Definition in_span (s0 W t : Q) : Prop := (s0 <= t /\ t < s0 + W)%Q.

(** The clock readings of the calls made for one key, in call order. *)
Definition times_for (user_id : Z) (calls : list (Z * Q)) : list Q :=
  List.map snd (List.filter (fun c => Z.eqb (fst c) user_id) calls).

(** The answers to successive checks of one key, as a function of the
    list stored under it: what [run_checks] computes for that key. *)
Fixpoint key_answers (W : Q) (L : Z) (stored : list Q) (nows : list Q)
  : list bool :=
  match nows with
  | [] => []
  | now :: rest =>
      let stored' :=
        List.filter (fun t => Qltb (now - t) W) stored ++ [now] in
      (Z.of_nat (length stored') <=? L)%Z :: key_answers W L stored' rest
  end.

(** Successive readings that never run backwards and are less than [W]
    apart. *)
Fixpoint no_gap (W t0 : Q) (ts : list Q) : Prop :=
  match ts with
  | [] => True
  | t :: rest => (t0 <= t /\ t - t0 < W)%Q /\ no_gap W t rest
  end.

(** The reading of the burst property that quantifies over every span:
    whatever calls came [earlier], the [i]-th call of a [burst] that fits
    in a span of [W] seconds is admitted exactly when [i <= L]. *)
Definition first_calls_admitted_in_every_span : Prop :=
  forall (W : Q) (L : Z) (k : Z) (t0 : Q) (earlier burst : list Q) (s0 : Q),
    no_gap W t0 (earlier ++ burst) ->
    Forall (in_span s0 W) burst ->
    forall i : nat,
      (i < length burst)%nat ->
      drop (length earlier)
        (answers_for k
           (fst (run_checks W L ∅ (List.map (pair k) (earlier ++ burst)))))
        !! i
      = Some (bool_decide (Z.of_nat (S i) <= L)%Z).

(** The dispatcher reached a backend and the backend answered [o]: the
    selector is known, the limiter admits the call, the credential of the
    selected backend is set, and the call made with [prompt] ends in
    [o]. *)
Definition backend_answers (w : world) (author_id : Z) (ai_model prompt : str)
    (now : Q) (st : bot_state) (o : backend_outcome) : Prop :=
  fst (check_spam author_id (user_ai_times st)
         AI_TIME_WINDOW AI_MESSAGE_LIMIT now) = false
  /\ ((lower ai_model = lit "chatgpt"
       /\ truthy (OPENAI_API_KEY w) = true
       /\ openai_create w prompt = o)
      \/ (lower ai_model = lit "gemini"
          /\ truthy (GEMINI_API_KEY w) = true
          /\ gemini_generate w prompt = o)).

(** The exception the [try] statement of [ai_command] catches after the
    backend call ended in [o]: the backend's own, or the one the first
    [ctx.followup] raises when the backend returned. *)
Definition caught (o : backend_outcome) : str :=
  match o with
  | Returned _ => no_followup
  | Raised e => e
  end.



(** A world for examples: an OpenAI key and no Gemini key; the OpenAI
    backend echoes the prompt. *)
Definition quiet_world : world :=
  {| OPENAI_API_KEY := Some (lit "sk-test");
     GEMINI_API_KEY := None;
     openai_create := fun prompt => Returned prompt;
     gemini_generate := fun _ => Raised (lit "unreachable");
     logs_channel := fun _ => None;
     log_channel_send := fun _ _ => Sent |}.

(** The same world with an OpenAI backend that raises. *)
Definition failing_world : world :=
  {| OPENAI_API_KEY := Some (lit "sk-test");
     GEMINI_API_KEY := None;
     openai_create := fun _ => Raised (lit "Connection error.");
     gemini_generate := fun _ => Raised (lit "unreachable");
     logs_channel := fun _ => None;
     log_channel_send := fun _ _ => Sent |}.

(** A world whose OpenAI backend returns a text of [n] letters. *)
Definition verbose_world (n : nat) : world :=
  {| OPENAI_API_KEY := Some (lit "sk-test");
     GEMINI_API_KEY := None;
     openai_create := fun _ => Returned (repeat 97%N n);
     gemini_generate := fun _ => Raised (lit "unreachable");
     logs_channel := fun _ => None;
     log_channel_send := fun _ _ => Sent |}.

(** The state after five messages of user 7 at readings 0 to 4. *)
Definition flooded_state : bot_state :=
  {| user_message_times :=
       snd (run_checks SPAM_TIME_WINDOW SPAM_MESSAGE_LIMIT ∅
              [(7%Z, 0%Q); (7%Z, 1%Q); (7%Z, 2%Q); (7%Z, 3%Q); (7%Z, 4%Q)]);
     user_ai_times := ∅ |}.

Definition plain_message (from_bot : bool) : message :=
  {| author_bot := from_bot;
     author_id := 7;
     message_guild := Some {| guild_id := 1; guild_name := lit "home" |};
     content := lit "hello";
     attachments := [] |}.

End Props.

(** ** The logs channel: lines 77-99, 122-125 and 241-253 *)

Module Channels.
Import Py Bot.

(** The part of a [discord.TextChannel] the code reads: its name, for the
    lookup, and its [mention] string, for the reply of [/logs]. *)
Record text_channel := {
  channel_id : Z;
  channel_name : str;
  channel_mention : str
}.

(** What [guild.create_text_channel] does: it returns the new channel, or
    raises [discord.Forbidden], or raises something else with message
    [str(e)]. *)
Inductive create_outcome :=
| Created (c : text_channel)
| CreateForbidden
| CreateFailed (message : str).

(** Calls made by the functions of this module, in program order.  The
    two booleans of [CreateTextChannel] are the [send_messages] overwrites of
    the default role and of the bot. *)
Inductive call :=
| CreateTextChannel (name topic : str) (everyone_sends bot_sends : bool)
| LogInfo (text : str)
| LogError (text : str)
| Reply (text : str) (ephemeral : bool).

(** [discord.utils.get(channels, name=name)]: the first channel with that
    name. *)
Definition utils_get (channels : list text_channel) (name : str)
  : option text_channel :=
  List.find (fun c => bool_decide (channel_name c = name)) channels.

(** [get_or_create_logs_channel(guild)], with [text_channels] the channels
    of the guild and [create] what the platform does if asked to create
    one. *)
Definition get_or_create_logs_channel (g : guild)
    (text_channels : list text_channel) (create : create_outcome)
  : option text_channel * list call :=
  match utils_get text_channels (lit "logs") with
  | Some log_channel => (Some log_channel, [])
  | None =>
      match create with
      | Created log_channel =>
          (Some log_channel,
           [ CreateTextChannel (lit "logs") (lit "Bot message logs") false true;
             LogInfo ([9989%N] ++ lit " Created logs channel in " ++ guild_name g) ])
      | CreateForbidden =>
          (None,
           [ CreateTextChannel (lit "logs") (lit "Bot message logs") false true;
             LogError
               ([10060%N] ++ lit " No permission to create logs channel in "
                  ++ guild_name g) ])
      | CreateFailed e =>
          (None,
           [ CreateTextChannel (lit "logs") (lit "Bot message logs") false true;
             LogError ([10060%N] ++ lit " Error creating logs channel: " ++ e) ])
      end
  end.

(** [on_guild_join(guild)]: the result of the lookup is dropped. *)
Definition on_guild_join (g : guild) (text_channels : list text_channel)
    (create : create_outcome) : list call :=
  snd (get_or_create_logs_channel g text_channels create).

(** The body of [logs_command(ctx)]; [ctx_guild] is [ctx.guild] with its
    channels, [None] outside a server. *)
Definition logs_command (ctx_guild : option (guild * list text_channel))
    (create : create_outcome) : list call :=
  match ctx_guild with
  | None =>
      [Reply ([10060%N] ++ lit " This command can only be used in servers.") true]
  | Some (g, text_channels) =>
      let '(log_channel, calls) :=
        get_or_create_logs_channel g text_channels create in
      calls ++
      match log_channel with
      | Some c =>
          [Reply ([9989%N] ++ lit " Logs channel: " ++ channel_mention c) true]
      | None =>
          [Reply
             ([10060%N]
                ++ lit " Could not create or access logs channel. Check bot permissions.")
             true]
      end
  end.

Definition is_create (c : call) : bool :=
  match c with
  | CreateTextChannel _ _ _ _ => true
  | _ => false
  end.

Definition is_reply (c : call) : bool :=
  match c with
  | Reply _ _ => true
  | _ => false
  end.

End Channels.

(** ** The other commands: lines 264-276 and 288-299 *)

Module Commands.
Import Py Bot.

(** Lines 264-274 of [info_command]: one line per backend. *)
Definition ai_status (w : world) : list str :=
  [ if bool_decide (is_Some (openai_client w))
    then [9989%N] ++ lit " ChatGPT"
    else [10060%N] ++ lit " ChatGPT" ] ++
  [ if truthy (GEMINI_API_KEY w)
    then [9989%N] ++ lit " Gemini"
    else [10060%N] ++ lit " Gemini" ].

(** The value of the field [AI Services] (line 276). *)
Definition ai_services_value (w : world) : str := join_lines (ai_status w).

(** The errors [on_command_error] tells apart; [param] is the rendering of
    [error.param] and [text] that of any other error. *)
Inductive command_error :=
| MissingPermissions
| CommandNotFound
| MissingRequiredArgument (param : str)
| OtherError (text : str).

(** [on_command_error(ctx, error)] *)
Definition on_command_error (error : command_error) : list event :=
  match error with
  | MissingPermissions =>
      [CtxSend ([10060%N] ++ lit " You don't have permission to use this command.") true]
  | CommandNotFound => []
  | MissingRequiredArgument param =>
      [CtxSend ([10060%N] ++ lit " Missing required argument: `" ++ param ++ lit "`") true]
  | OtherError text =>
      [ LoggerError (lit "Command error: " ++ text);
        CtxSend ([10060%N] ++ lit " An error occurred while processing the command.") true ]
  end.

(** The texts shown to the user by a run, in order. *)
Definition shown (tr : list event) : list str :=
  omap (fun e =>
          match e with
          | CtxSend t _ | FollowupSend t | MessageReply t _ => Some t
          | _ => None
          end) tr.

End Commands.

(** ** Runs of the two handlers *)

Module Run.
Import Py Limiter Bot.

(** One event delivered to the bot. *)
Inductive invocation :=
| Message (m : message)
| AiCommand (author_id : Z) (ai_model prompt : str).

Definition handle (w : world) (inv : invocation) (now : Q) (st : bot_state)
  : bot_state * list event :=
  match inv with
  | Message m => on_message w m now st
  | AiCommand author_id ai_model prompt =>
      ai_command w author_id ai_model prompt now st
  end.

(** The handlers touch the dictionaries only in [check_spam], before their
    first [await]; as far as the state goes, the events of a run are handled
    one after the other, each with the reading its check takes. *)
Fixpoint run_bot (w : world) (st : bot_state) (invs : list (invocation * Q))
  : bot_state * list (list event) :=
  match invs with
  | [] => (st, [])
  | (inv, now) :: rest =>
      let '(st', tr) := handle w inv now st in
      let '(st'', trs) := run_bot w st' rest in
      (st'', tr :: trs)
  end.

(** The checks of the flood limiter a run performs: one per message of a
    human author. *)
Fixpoint message_checks (invs : list (invocation * Q)) : list (Z * Q) :=
  match invs with
  | [] => []
  | (Message m, now) :: rest =>
      if author_bot m then message_checks rest
      else (author_id m, now) :: message_checks rest
  | (AiCommand _ _ _, _) :: rest => message_checks rest
  end.

(** The checks of the AI limiter a run performs: one per [/ai] request with
    a known selector. *)
Fixpoint ai_checks (invs : list (invocation * Q)) : list (Z * Q) :=
  match invs with
  | [] => []
  | (AiCommand author_id ai_model _, now) :: rest =>
      if bool_decide (lower ai_model ∈ [lit "chatgpt"; lit "gemini"])
      then (author_id, now) :: ai_checks rest
      else ai_checks rest
  | (Message _, _) :: rest => ai_checks rest
  end.

(** Whether a run of [on_message] handed the message to the command
    router. *)
Definition processed (tr : list event) : bool :=
  existsb (fun e => match e with ProcessCommands _ => true | _ => false end) tr.

(** Whether a run of [ai_command] is the throttle notice and nothing
    else. *)
Definition throttled (tr : list event) : bool :=
  match tr with
  | [CtxSend text true] =>
      bool_decide
        (text = [128683%N]
                  ++ lit " You're making too many AI requests. Please wait a minute.")
  | _ => false
  end.

End Run.

Import Py Limiter Bot Props.

(** ** Facts about the Python values *)

Lemma Qltb_lt (x y : Q) : Qltb x y = true <-> (x < y)%Q.
Proof.
  unfold Qltb. rewrite negb_true_iff, <- not_true_iff_false, Qle_bool_iff.
  split; lra.
Qed.

Lemma Qltb_ge (x y : Q) : Qltb x y = false <-> (y <= x)%Q.
Proof.
  unfold Qltb. rewrite negb_false_iff, Qle_bool_iff. reflexivity.
Qed.

(** ** The limiter: one check *)

Section OneCheck.
Variables (W : Q) (L : Z).

Lemma check_spam_stored k d now :
  snd (check_spam k d W L now) !! k
  = Some (List.filter (fun t => Qltb (now - t) W) (default [] (d !! k)) ++ [now]).
Proof. unfold check_spam; simpl. apply lookup_insert_eq. Qed.

Lemma check_spam_frame k k' d now :
  k <> k' -> snd (check_spam k d W L now) !! k' = d !! k'.
Proof. intros Hne. unfold check_spam; simpl. by apply lookup_insert_ne. Qed.

Lemma check_spam_answer k d now :
  negb (fst (check_spam k d W L now))
  = (Z.of_nat
       (length (List.filter (fun t => Qltb (now - t) W) (default [] (d !! k)) ++ [now]))
     <=? L)%Z.
Proof. unfold check_spam; simpl. symmetry. apply Z.leb_antisym. Qed.

Lemma run_checks_cons k now rest d :
  run_checks W L d ((k, now) :: rest)
  = ((k, negb (fst (check_spam k d W L now)))
       :: fst (run_checks W L (snd (check_spam k d W L now)) rest),
     snd (run_checks W L (snd (check_spam k d W L now)) rest)).
Proof.
  cbn [run_checks]. destruct (check_spam k d W L now) as [spam d'].
  cbn [fst snd]. by destruct (run_checks W L d' rest).
Qed.

Lemma answers_for_cons k k' (b : bool) rest :
  answers_for k ((k', b) :: rest)
  = if (k' =? k)%Z then b :: answers_for k rest else answers_for k rest.
Proof. unfold answers_for; cbn. by destruct (k' =? k)%Z. Qed.

Lemma times_for_cons k k' (t : Q) rest :
  times_for k ((k', t) :: rest)
  = if (k' =? k)%Z then t :: times_for k rest else times_for k rest.
Proof. unfold times_for; cbn. by destruct (k' =? k)%Z. Qed.

(** The answers to a key depend only on the list stored under it and on
    the readings of its own calls. *)
Lemma answers_for_key k calls : forall d,
  answers_for k (fst (run_checks W L d calls))
  = key_answers W L (default [] (d !! k)) (times_for k calls).
Proof.
  induction calls as [| [k' now] rest IH]; intros d; [reflexivity |].
  rewrite run_checks_cons. cbn [fst].
  rewrite answers_for_cons, times_for_cons, IH.
  destruct (Z.eqb_spec k' k) as [-> | Hne].
  - rewrite check_spam_stored, check_spam_answer. reflexivity.
  - rewrite check_spam_frame by exact Hne. reflexivity.
Qed.

End OneCheck.

(** ** The limiter: a burst of calls inside one span *)

Section Burst.
Variables (W : Q) (L : Z) (s0 : Q).

Local Abbreviation live now := (fun t : Q => Qltb (now - t) W).

Lemma in_span_live now t :
  in_span s0 W now -> in_span s0 W t -> Qltb (now - t) W = true.
Proof. unfold in_span. intros [_ Hn] [Ht _]. apply Qltb_lt. lra. Qed.

Lemma before_span_expired now h :
  in_span s0 W now -> (h + W <= s0)%Q -> Qltb (now - h) W = false.
Proof. unfold in_span. intros [Hn _] Hh. apply Qltb_ge. lra. Qed.

(** Pruning at a reading of the span keeps every timestamp of the span. *)
Lemma prune_keeps_span now stored :
  in_span s0 W now ->
  filter (in_span s0 W) (List.filter (live now) stored)
  = filter (in_span s0 W) stored.
Proof.
  intros Hnow. induction stored as [| t stored IH]; [reflexivity |].
  cbn [List.filter]. destruct (decide (in_span s0 W t)) as [Ht | Ht].
  - rewrite (in_span_live now t Hnow Ht).
    rewrite !filter_cons_True by exact Ht. by rewrite IH.
  - rewrite (filter_cons_False _ t stored) by exact Ht.
    destruct (Qltb (now - t) W); [| exact IH].
    rewrite filter_cons_False by exact Ht. exact IH.
Qed.

Lemma prune_all_in_span now stored :
  in_span s0 W now -> Forall (in_span s0 W) stored ->
  List.filter (live now) stored = stored.
Proof.
  intros Hnow. induction 1 as [| t stored Ht _ IH]; [reflexivity |].
  cbn [List.filter]. rewrite (in_span_live now t Hnow Ht). by rewrite IH.
Qed.

Lemma prune_all_before_span now stored :
  in_span s0 W now -> Forall (fun h => (h + W <= s0)%Q) stored ->
  List.filter (live now) stored = [].
Proof.
  intros Hnow. induction 1 as [| h stored Hh _ IH]; [reflexivity |].
  cbn [List.filter]. by rewrite (before_span_expired now h Hnow Hh).
Qed.

(** Once more than [L] timestamps of the span are stored or arriving, the
    answer is a rejection. *)
Lemma key_answers_over_limit nows : forall stored (i : nat),
  Forall (in_span s0 W) nows ->
  (i < length nows)%nat ->
  (L < Z.of_nat (length (filter (in_span s0 W) stored) + S i))%Z ->
  key_answers W L stored nows !! i = Some false.
Proof.
  induction nows as [| now rest IH]; intros stored i Hall Hi Hover;
    [cbn in Hi; lia |].
  apply Forall_cons in Hall as [Hnow Hrest].
  assert (Hcount :
    length (filter (in_span s0 W) (List.filter (live now) stored ++ [now]))
    = S (length (filter (in_span s0 W) stored))).
  { rewrite filter_app, length_app, prune_keeps_span by exact Hnow.
    rewrite filter_cons_True by exact Hnow. cbn. lia. }
  destruct i as [| i]; cbn [key_answers].
  - cbn. f_equal. apply Z.leb_gt.
    pose proof (length_filter (in_span s0 W)
                  (List.filter (live now) stored ++ [now])) as Hle.
    rewrite Hcount in Hle. lia.
  - cbn [lookup list_lookup]. apply IH; [exact Hrest | cbn in Hi; lia |].
    rewrite Hcount. lia.
Qed.

(** While everything stored lies in the span nothing is pruned, and the
    answer counts the stored timestamps. *)
Lemma key_answers_in_span nows : forall stored (i : nat),
  Forall (in_span s0 W) nows ->
  Forall (in_span s0 W) stored ->
  (i < length nows)%nat ->
  key_answers W L stored nows !! i
  = Some (Z.of_nat (length stored + S i) <=? L)%Z.
Proof.
  induction nows as [| now rest IH]; intros stored i Hall Hstored Hi;
    [cbn in Hi; lia |].
  apply Forall_cons in Hall as [Hnow Hrest].
  cbn [key_answers]. rewrite (prune_all_in_span now stored Hnow Hstored).
  destruct i as [| i].
  - cbn. rewrite length_app. cbn. reflexivity.
  - cbn [lookup list_lookup]. rewrite IH; [| exact Hrest | | cbn in Hi; lia].
    + rewrite length_app. cbn. do 3 f_equal. lia.
    + apply Forall_app. split; [exact Hstored | by apply Forall_singleton].
Qed.

(** A history that expired before the span is as good as none. *)
Lemma key_answers_expired_history nows stored :
  Forall (in_span s0 W) nows ->
  Forall (fun h => (h + W <= s0)%Q) stored ->
  key_answers W L stored nows = key_answers W L [] nows.
Proof.
  destruct nows as [| now rest]; [reflexivity |].
  intros Hall Hold. apply Forall_cons in Hall as [Hnow _].
  cbn [key_answers]. by rewrite (prune_all_before_span now stored Hnow Hold).
Qed.

End Burst.

(** ** C1: the admission check and the burst property *)

(** C1 (as amended).  One check of key [k] at reading [now] keeps, in
    order, exactly the stored timestamps [t] for which [now - t >= W] does
    not hold, appends [now], stores the result under [k], leaves every other
    key alone, and admits the call iff the new length is at most [L].
    Consequently, for the calls of [k] that fall in a span of [W] seconds
    starting at [s0]: every call beyond the [L]-th of the span is rejected,
    whatever is stored; and when everything stored under [k] expired [W] or
    more seconds before [s0] (a first-seen key, or a gap of at least [W]),
    the [i]-th call of the span is admitted iff [i <= L]. *)
Theorem C1_admission_check (W : Q) (L : Z) (k : Z) (d : gmap Z (list Q))
    (s0 : Q) (calls : list (Z * Q)) :
  Forall (in_span s0 W) (times_for k calls) ->
  (forall now : Q,
      exists kept : list Q,
        kept = filter (fun t => ~ (W <= now - t)%Q) (default [] (d !! k))
        /\ snd (check_spam k d W L now) = <[k := kept ++ [now]]> d
        /\ (forall k', k' <> k -> snd (check_spam k d W L now) !! k' = d !! k')
        /\ (fst (check_spam k d W L now) = false
            <-> (Z.of_nat (length (kept ++ [now])) <= L)%Z))
  /\ (forall i : nat,
        (i < length (times_for k calls))%nat ->
        (L < Z.of_nat (S i))%Z ->
        answers_for k (fst (run_checks W L d calls)) !! i = Some false)
  /\ (Forall (fun h => (h + W <= s0)%Q) (default [] (d !! k)) ->
      forall i : nat,
        (i < length (times_for k calls))%nat ->
        answers_for k (fst (run_checks W L d calls)) !! i
        = Some (Z.of_nat (S i) <=? L)%Z).
Proof.
  intros Hspan. split; [| split].
  - intros now.
    assert (Hkept : forall l : list Q,
      List.filter (fun t => Qltb (now - t) W) l
      = filter (fun t => ~ (W <= now - t)%Q) l).
    { induction l as [| t l IH]; [reflexivity |]. cbn [List.filter].
      destruct (Qltb (now - t) W) eqn:Hlt.
      - rewrite filter_cons_True by (apply Qltb_lt in Hlt; lra).
        by rewrite IH.
      - rewrite filter_cons_False; [exact IH |].
        apply Qltb_ge in Hlt. intros Hn. exact (Hn Hlt). }
    eexists. split; [reflexivity |]. rewrite <- Hkept.
    split; [reflexivity |]. split.
    + intros k' Hne. by apply check_spam_frame.
    + unfold check_spam; cbn [fst]. apply Z.ltb_ge.
  - intros i Hi Hover. rewrite answers_for_key.
    apply (key_answers_over_limit W L s0); [exact Hspan | exact Hi | lia].
  - intros Hold i Hi. rewrite answers_for_key.
    rewrite (key_answers_expired_history W L s0) by assumption.
    by rewrite (key_answers_in_span W L s0) by (assumption || constructor).
Qed.

(** Three calls of user 1 inside ten seconds with limit 2, another user in
    between: the third call is the first one rejected. *)
Lemma C1_admission_check_witness :
  answers_for 1 (fst (run_checks 10 2 ∅ [(1%Z, 0%Q); (2%Z, 1%Q); (1%Z, 3%Q); (1%Z, 5%Q)]))
    !! 2%nat
  = Some false.
Proof.
  assert (Hspan : Forall (in_span 0 10)
                    (times_for 1 [(1%Z, 0%Q); (2%Z, 1%Q); (1%Z, 3%Q); (1%Z, 5%Q)])).
  { cbn. repeat (apply List.Forall_cons; [unfold in_span, Qle, Qlt; cbn; lia |]).
    apply List.Forall_nil. }
  destruct (C1_admission_check 10 2 1 ∅ 0
              [(1%Z, 0%Q); (2%Z, 1%Q); (1%Z, 3%Q); (1%Z, 5%Q)] Hspan) as (_ & Hover & _).
  apply Hover; cbn; lia.
Defined.

(** The calls at 0, 1, ..., 6 with window 10 and limit 5: the calls at
    1, ..., 6 fit in the span that starts at 1, no two successive calls are
    10 or more apart, and the fifth call of that span, at reading 5, is the
    sixth inside the limiter's window and is rejected. *)
Lemma C1_every_span_counterexample : ~ first_calls_admitted_in_every_span.
Proof.
  intros H.
  specialize (H 10%Q 5%Z 1%Z 0%Q [0]%Q [1; 2; 3; 4; 5; 6]%Q 1%Q).
  assert (Hgap : no_gap 10 0 ([0] ++ [1; 2; 3; 4; 5; 6])%Q).
  { cbn. unfold Qle, Qlt; cbn. repeat split; lia. }
  assert (Hspan : Forall (in_span 1 10) [1; 2; 3; 4; 5; 6]%Q).
  { repeat (apply List.Forall_cons; [unfold in_span, Qle, Qlt; cbn; lia |]).
    apply List.Forall_nil. }
  specialize (H Hgap Hspan 4%nat ltac:(cbn; lia)).
  vm_compute in H. discriminate H.
Qed.

(** ** The limiter: what is stored after a history of calls *)

Section History.
Variables (W : Q) (L : Z).

(** Every stored timestamp is the reading of an earlier call for the same
    key. *)
Lemma stored_from_calls calls : forall d k (t : Q),
  In t (default [] (snd (run_checks W L d calls) !! k)) ->
  In t (default [] (d !! k)) \/ In (k, t) calls.
Proof.
  induction calls as [| [k' now] rest IH]; intros d k t Hin; [by left |].
  rewrite run_checks_cons in Hin. cbn [snd] in Hin.
  destruct (IH _ _ _ Hin) as [Hd | Hrest]; [| by right; right].
  destruct (decide (k' = k)) as [-> | Hne].
  - rewrite check_spam_stored in Hd. cbn [default] in Hd.
    apply in_app_or in Hd as [Hkept | Hnow].
    + left. by apply filter_In in Hkept as [? _].
    + right; left. destruct Hnow as [-> | []]. reflexivity.
  - rewrite check_spam_frame in Hd by exact Hne. by left.
Qed.






End History.

(** ** C7: a gap of [W] seconds resets the window *)

(** C7.  Start from the empty dictionary and let any history of checks run.
    If every earlier call for key [k] was made [W] or more seconds before
    [now] and the limit is at least 1, the check of [k] at [now] is
    admitted, and the list stored under [k] is [now] alone whatever the
    history was. *)
Theorem C7_gap_resets_window (W : Q) (L : Z) (calls : list (Z * Q))
    (k : Z) (now : Q) :
  (1 <= L)%Z ->
  (forall t : Q, In (k, t) calls -> (W <= now - t)%Q) ->
  fst (check_spam k (snd (run_checks W L ∅ calls)) W L now) = false
  /\ snd (check_spam k (snd (run_checks W L ∅ calls)) W L now) !! k = Some [now].
Proof.
  intros HL Hgap.
  assert (Hnone :
    List.filter (fun t => Qltb (now - t) W)
      (default [] (snd (run_checks W L ∅ calls) !! k)) = []).
  { assert (Hall : forall t,
      In t (default [] (snd (run_checks W L ∅ calls) !! k)) ->
      Qltb (now - t) W = false).
    { intros t Hin. apply Qltb_ge, Hgap.
      destruct (stored_from_calls W L calls ∅ k t Hin) as [Hempty | Hcall];
        [| exact Hcall].
      rewrite lookup_empty in Hempty. destruct Hempty. }
    induction (default [] (snd (run_checks W L ∅ calls) !! k)) as [| t s IH];
      [reflexivity |].
    cbn [List.filter]. rewrite (Hall t) by (by left).
    apply IH. intros u Hu. apply Hall. by right. }
  split.
  - unfold check_spam. cbn [fst]. rewrite Hnone. cbn. apply Z.ltb_ge. lia.
  - rewrite check_spam_stored, Hnone. reflexivity.
Qed.

(** Four calls of user 1 at 0, 1, 2, 3 against limit 1, then silence: the
    call at reading 13, exactly ten seconds after the last one, passes. *)
Lemma C7_gap_resets_window_witness :
  fst (check_spam 1
         (snd (run_checks 10 1 ∅ [(1%Z, 0%Q); (1%Z, 1%Q); (1%Z, 2%Q); (1%Z, 3%Q)]))
         10 1 13) = false.
Proof.
  apply (C7_gap_resets_window 10 1
           [(1%Z, 0%Q); (1%Z, 1%Q); (1%Z, 2%Q); (1%Z, 3%Q)] 1 13).
  - lia.
  - intros t Hin. cbn in Hin.
    repeat (destruct Hin as [Heq | Hin];
            [injection Heq as <-; unfold Qle; cbn; lia |]).
    destruct Hin.
Defined.

(** ** C8: every check is recorded, and what the stored list looks like *)

Lemma filter_sublist (f : Q -> bool) (s : list Q) : sublist (List.filter f s) s.
Proof.
  induction s as [| t s IH]; cbn; [constructor |].
  destruct (f t); by constructor.
Qed.





(** ** The dispatcher: which branch runs *)

Lemma title_chatgpt : title (lit "chatgpt") = lit "Chatgpt".
Proof. reflexivity. Qed.

Lemma title_gemini : title (lit "gemini") = lit "Gemini".
Proof. reflexivity. Qed.

Lemma known_selector (ai_model : str) :
  bool_decide (ai_model ∈ [lit "chatgpt"; lit "gemini"]) = true
  <-> ai_model = lit "chatgpt" \/ ai_model = lit "gemini".
Proof.
  rewrite bool_decide_eq_true, !elem_of_cons, elem_of_nil. tauto.
Qed.

Lemma openai_client_set (w : world) :
  is_Some (openai_client w) <-> truthy (OPENAI_API_KEY w) = true.
Proof.
  unfold openai_client. destruct (OPENAI_API_KEY w) as [[| c key] |]; cbn.
  - split; [intros [x Hx]; discriminate | discriminate].
  - split; [reflexivity | intros _; by eexists].
  - split; [intros [x Hx]; discriminate | discriminate].
Qed.

Section Dispatch.
Variables (w : world) (author_id : Z) (ai_model prompt : str) (now : Q)
          (st : bot_state).

Local Abbreviation checked :=
  (check_spam author_id (user_ai_times st) AI_TIME_WINDOW AI_MESSAGE_LIMIT now).

(** An unknown selector stops the command at once. *)
Lemma ai_command_unknown :
  lower ai_model <> lit "chatgpt" -> lower ai_model <> lit "gemini" ->
  ai_command w author_id ai_model prompt now st
  = (st, [CtxSend ([10060%N] ++ lit " Invalid AI model. Use `chatgpt` or `gemini`.") true]).
Proof.
  intros Hc Hg. unfold ai_command.
  rewrite (proj2 (bool_decide_eq_false _)); [reflexivity |].
  rewrite !elem_of_cons, elem_of_nil. tauto.
Qed.

(** With a known selector the limiter is consulted, and the state after
    the command is the state after that check on every path. *)
Lemma ai_command_state :
  lower ai_model = lit "chatgpt" \/ lower ai_model = lit "gemini" ->
  fst (ai_command w author_id ai_model prompt now st)
  = {| user_message_times := user_message_times st;
       user_ai_times := snd checked |}.
Proof.
  intros Hknown. unfold ai_command.
  rewrite (proj2 (known_selector _) Hknown). cbn [negb].
  destruct (check_spam author_id (user_ai_times st)
              AI_TIME_WINDOW AI_MESSAGE_LIMIT now) as [spam times].
  cbn [snd]. destruct spam; [reflexivity |].
  destruct (try_backend w (lower ai_model) prompt) as [calls raised].
  repeat match goal with
         | |- context [if ?b then _ else _] => destruct b
         end; reflexivity.
Qed.

(** Whatever text came back, the statements that are to send it end at the
    first [ctx.followup], before any call. *)
Lemma send_response_raises (selector text : str) :
  send_response selector text = ([], Some no_followup).
Proof.
  unfold send_response, range.
  destruct (Nat.ltb_spec 2000 (length text)) as [Hlong | Hshort]; [| reflexivity].
  destruct (length text) as [| n]; [lia |].
  cbn [range_from]. rewrite (proj2 (Nat.ltb_lt 0 (S n))) by lia.
  reflexivity.
Qed.

(** The [try] statement for either backend: the call, the log line of the
    handler, and the [AttributeError] of the handler's own [ctx.followup]. *)
Lemma try_backend_chatgpt :
  try_backend w (lit "chatgpt") prompt
  = ([ OpenAICreate (lit "gpt-4o-mini") prompt 1000;
       LoggerError (lit "AI request error: " ++ caught (openai_create w prompt)) ],
     Some no_followup).
Proof.
  unfold try_backend.
  rewrite (bool_decide_eq_true_2 (lit "chatgpt" = lit "chatgpt") eq_refl).
  destruct (openai_create w prompt) as [text | e]; [| reflexivity].
  rewrite send_response_raises. reflexivity.
Qed.

Lemma try_backend_gemini :
  try_backend w (lit "gemini") prompt
  = ([ GeminiGenerate (lit "gemini-1.5-flash") prompt;
       LoggerError (lit "AI request error: " ++ caught (gemini_generate w prompt)) ],
     Some no_followup).
Proof.
  unfold try_backend.
  rewrite (bool_decide_eq_false_2 (lit "gemini" = lit "chatgpt")) by discriminate.
  rewrite (bool_decide_eq_true_2 (lit "gemini" = lit "gemini") eq_refl).
  destruct (gemini_generate w prompt) as [text | e]; [| reflexivity].
  rewrite send_response_raises. reflexivity.
Qed.

Lemma ai_command_chatgpt :
  lower ai_model = lit "chatgpt" ->
  fst checked = false ->
  snd (ai_command w author_id ai_model prompt now st)
  = if truthy (OPENAI_API_KEY w)
    then
      [ CtxDefer;
        OpenAICreate (lit "gpt-4o-mini") prompt 1000;
        LoggerError (lit "AI request error: " ++ caught (openai_create w prompt));
        Escapes no_followup ]
    else
      [CtxSend ([10060%N] ++ lit " ChatGPT is not available (API key missing).") true].
Proof.
  intros Hm Hadmit. unfold ai_command. rewrite Hm.
  rewrite (proj2 (known_selector _) (or_introl eq_refl)). cbn [negb].
  destruct (check_spam author_id (user_ai_times st)
              AI_TIME_WINDOW AI_MESSAGE_LIMIT now) as [spam times].
  cbn [fst] in Hadmit. subst spam.
  rewrite (bool_decide_eq_true_2 (lit "chatgpt" = lit "chatgpt") eq_refl).
  cbn [andb].
  destruct (truthy (OPENAI_API_KEY w)) eqn:Hkey.
  - rewrite (bool_decide_eq_true_2 _ (proj2 (openai_client_set w) Hkey)).
    cbn [negb].
    rewrite (bool_decide_eq_false_2 (lit "chatgpt" = lit "gemini")) by discriminate.
    cbn [andb]. rewrite try_backend_chatgpt. reflexivity.
  - rewrite (bool_decide_eq_false_2 (is_Some (openai_client w))); [reflexivity |].
    rewrite openai_client_set, Hkey. discriminate.
Qed.

Lemma ai_command_gemini :
  lower ai_model = lit "gemini" ->
  fst checked = false ->
  snd (ai_command w author_id ai_model prompt now st)
  = if truthy (GEMINI_API_KEY w)
    then
      [ CtxDefer;
        GeminiGenerate (lit "gemini-1.5-flash") prompt;
        LoggerError (lit "AI request error: " ++ caught (gemini_generate w prompt));
        Escapes no_followup ]
    else
      [CtxSend ([10060%N] ++ lit " Gemini is not available (API key missing).") true].
Proof.
  intros Hm Hadmit. unfold ai_command. rewrite Hm.
  rewrite (proj2 (known_selector _) (or_intror eq_refl)). cbn [negb].
  destruct (check_spam author_id (user_ai_times st)
              AI_TIME_WINDOW AI_MESSAGE_LIMIT now) as [spam times].
  cbn [fst] in Hadmit. subst spam.
  rewrite (bool_decide_eq_false_2 (lit "gemini" = lit "chatgpt")) by discriminate.
  rewrite (bool_decide_eq_true_2 (lit "gemini" = lit "gemini") eq_refl).
  cbn [andb].
  destruct (truthy (GEMINI_API_KEY w)); [| reflexivity].
  cbn [negb]. rewrite try_backend_gemini. reflexivity.
Qed.

End Dispatch.

(** ** C5: an unknown selector *)

(** C5.  When the lowercased selector is neither [chatgpt] nor [gemini],
    the command makes one call, the ephemeral error notice, and returns:
    both dictionaries are as before, nothing is deferred, no backend is
    called, and neither the credentials, the backends nor the clock have
    any influence on what happens. *)
Theorem C5_unknown_selector (w : world) (author_id : Z) (ai_model prompt : str)
    (now : Q) (st : bot_state) :
  lower ai_model <> lit "chatgpt" ->
  lower ai_model <> lit "gemini" ->
  ai_command w author_id ai_model prompt now st
  = (st, [CtxSend ([10060%N] ++ lit " Invalid AI model. Use `chatgpt` or `gemini`.") true])
  /\ (forall (w' : world) (now' : Q),
        ai_command w' author_id ai_model prompt now' st
        = ai_command w author_id ai_model prompt now st)
  /\ ~ In CtxDefer (snd (ai_command w author_id ai_model prompt now st))
  /\ forallb (fun e => negb (is_backend_call e))
       (snd (ai_command w author_id ai_model prompt now st)) = true.
Proof.
  intros Hc Hg. rewrite ai_command_unknown by assumption.
  split; [reflexivity |]. split; [| split].
  - intros w' now'. by apply ai_command_unknown.
  - cbn. intros [Habs | []]. discriminate Habs.
  - reflexivity.
Qed.

(** The selector [Claude] is refused and the state stays the initial one. *)
Lemma C5_unknown_selector_witness :
  ai_command quiet_world 7 (lit "Claude") (lit "hello") 0 initial_state
  = (initial_state,
     [CtxSend ([10060%N] ++ lit " Invalid AI model. Use `chatgpt` or `gemini`.") true]).
Proof.
  apply (C5_unknown_selector quiet_world 7 (lit "Claude") (lit "hello") 0
           initial_state); vm_compute; discriminate.
Defined.

(** ** C6: the selected backend has no credential *)

(** C6.  When the selector is known, the limiter admits the call and the
    credential of the selected backend is missing or empty, the command
    makes one call, the ephemeral notice that names that backend, and no
    call reaches any backend. *)
Theorem C6_backend_unavailable (w : world) (author_id : Z)
    (ai_model prompt : str) (now : Q) (st : bot_state) :
  fst (check_spam author_id (user_ai_times st)
         AI_TIME_WINDOW AI_MESSAGE_LIMIT now) = false ->
  (lower ai_model = lit "chatgpt" /\ truthy (OPENAI_API_KEY w) = false)
  \/ (lower ai_model = lit "gemini" /\ truthy (GEMINI_API_KEY w) = false) ->
  snd (ai_command w author_id ai_model prompt now st)
  = [CtxSend
       ([10060%N] ++ lit " "
          ++ (if bool_decide (lower ai_model = lit "chatgpt")
              then lit "ChatGPT" else lit "Gemini")
          ++ lit " is not available (API key missing).")
       true]
  /\ forallb (fun e => negb (is_backend_call e))
       (snd (ai_command w author_id ai_model prompt now st)) = true.
Proof.
  intros Hadmit [[Hm Hkey] | [Hm Hkey]].
  - rewrite (ai_command_chatgpt w author_id ai_model prompt now st Hm Hadmit).
    rewrite Hkey, Hm. split; reflexivity.
  - rewrite (ai_command_gemini w author_id ai_model prompt now st Hm Hadmit).
    rewrite Hkey, Hm. split; reflexivity.
Qed.

(** [quiet_world] has no Gemini key: a first request for [GEMINI] gets the
    notice. *)
Lemma C6_backend_unavailable_witness :
  snd (ai_command quiet_world 7 (lit "GEMINI") (lit "hello") 0 initial_state)
  = [CtxSend ([10060%N] ++ lit " Gemini is not available (API key missing).") true].
Proof.
  apply (C6_backend_unavailable quiet_world 7 (lit "GEMINI") (lit "hello") 0
           initial_state).
  - reflexivity.
  - right. split; reflexivity.
Defined.

(** ** The dispatcher after the backend call *)

(** Once a backend was called, the run is the acknowledgement, the call,
    the log line of the handler and the [AttributeError] that leaves the
    command. *)
Lemma ai_command_after_backend (w : world) (author_id : Z)
    (ai_model prompt : str) (now : Q) (st : bot_state) (o : backend_outcome) :
  backend_answers w author_id ai_model prompt now st o ->
  exists call : event,
    is_backend_call call = true
    /\ snd (ai_command w author_id ai_model prompt now st)
       = [ CtxDefer; call;
           LoggerError (lit "AI request error: " ++ caught o);
           Escapes no_followup ].
Proof.
  intros [Hadmit [(Hm & Hkey & Hout) | (Hm & Hkey & Hout)]].
  - rewrite (ai_command_chatgpt w author_id ai_model prompt now st Hm Hadmit).
    rewrite Hkey, Hout. eexists. split; [| reflexivity]. reflexivity.
  - rewrite (ai_command_gemini w author_id ai_model prompt now st Hm Hadmit).
    rewrite Hkey, Hout. eexists. split; [| reflexivity]. reflexivity.
Qed.

(** ** C4: the backend raises *)

(** C4 (the code where the claim fails, and the part of the claim that
    holds).  When the backend call raises with message [e], the command
    makes the acknowledgement, the backend call and one line of the error
    log that carries [e]; the [ctx.followup] of the handler then raises
    [AttributeError], which leaves the command, so no follow-up message goes
    out: the chunk that is to name the provider is not sent.  The state
    after the command is the state right after the admission check, in every
    world: handling the failure touches neither dictionary, and the reading
    [now] appended at admission is still the last entry of the author's
    list. *)
Theorem C4_backend_failure (w : world) (author_id : Z) (ai_model prompt : str)
    (now : Q) (st : bot_state) (e : str) :
  backend_answers w author_id ai_model prompt now st (Raised e) ->
  let after := ai_command w author_id ai_model prompt now st in
  let checked :=
    snd (check_spam author_id (user_ai_times st)
           AI_TIME_WINDOW AI_MESSAGE_LIMIT now) in
  (exists call : event,
      is_backend_call call = true
      /\ snd after
         = [ CtxDefer; call;
             LoggerError (lit "AI request error: " ++ e);
             Escapes no_followup ])
  /\ followups (snd after) = []
  /\ fst after
     = {| user_message_times := user_message_times st; user_ai_times := checked |}
  /\ (forall w' : world,
        fst (ai_command w' author_id ai_model prompt now st) = fst after)
  /\ (exists kept : list Q,
        user_ai_times (fst after) !! author_id = Some (kept ++ [now])
        /\ sublist kept (default [] (user_ai_times st !! author_id))).
Proof.
  intros Hfail after checked.
  destruct (ai_command_after_backend _ _ _ _ _ _ _ Hfail) as (call & Hcall & Htrace).
  destruct Hfail as [Hadmit Hcalled].
  assert (Hknown : lower ai_model = lit "chatgpt" \/ lower ai_model = lit "gemini")
    by (destruct Hcalled as [[? _] | [? _]]; auto).
  assert (Hstate : forall w',
    fst (ai_command w' author_id ai_model prompt now st)
    = {| user_message_times := user_message_times st; user_ai_times := checked |})
    by (intros w'; by apply ai_command_state).
  split; [by exists call |].
  split; [subst after; rewrite Htrace; by destruct call |].
  split; [apply Hstate | split].
  - intros w'. subst after. by rewrite !Hstate.
  - subst after. rewrite Hstate. cbn [user_ai_times]. subst checked.
    eexists. split; [apply check_spam_stored | apply filter_sublist].
Qed.

(** A first request to a backend that raises: the reading 0 taken at
    admission stays in the author's list. *)
Lemma C4_backend_failure_witness :
  fst (ai_command failing_world 7 (lit "ChatGPT") (lit "hi") 0 initial_state)
  = {| user_message_times := ∅;
       user_ai_times :=
         snd (check_spam 7 ∅ AI_TIME_WINDOW AI_MESSAGE_LIMIT 0) |}.
Proof.
  destruct (C4_backend_failure failing_world 7 (lit "ChatGPT") (lit "hi") 0
              initial_state (lit "Connection error."))
    as (_ & _ & Hstate & _).
  - split; [reflexivity |]. left. repeat split; reflexivity.
  - exact Hstate.
Defined.

(** ** C2: the size of the messages of the success path *)



(** ** C3: a text of 5000 characters *)

(** C3 (the code where the claim fails).  A returned text of 5000
    characters does not go out in three chunks: the loop over the cuts ends
    in its first round, at [ctx.followup], before anything is sent.  The run
    is the acknowledgement, the backend call, one line of the error log with
    the text of the [AttributeError], and that error leaving the command
    from the handler; no follow-up message goes out. *)
Theorem C3_no_chunk_goes_out (w : world) (author_id : Z) (ai_model prompt : str)
    (now : Q) (st : bot_state) (text : str) :
  backend_answers w author_id ai_model prompt now st (Returned text) ->
  length text = 5000%nat ->
  (exists call : event,
      is_backend_call call = true
      /\ snd (ai_command w author_id ai_model prompt now st)
         = [ CtxDefer; call;
             LoggerError (lit "AI request error: " ++ no_followup);
             Escapes no_followup ])
  /\ followups (snd (ai_command w author_id ai_model prompt now st)) = []
  /\ send_response (lower ai_model) text = ([], Some no_followup).
Proof.
  intros Hok _.
  destruct (ai_command_after_backend _ _ _ _ _ _ _ Hok) as (call & Hcall & Htrace).
  split; [by exists call |].
  split; [rewrite Htrace; by destruct call |].
  apply send_response_raises.
Qed.

(** 5000 letters from the OpenAI backend: no follow-up message. *)
Lemma C3_no_chunk_goes_out_witness :
  followups
    (snd (ai_command (verbose_world 5000) 7 (lit "chatgpt") (lit "hi") 0
            initial_state))
  = [].
Proof.
  destruct (C3_no_chunk_goes_out (verbose_world 5000) 7 (lit "chatgpt") (lit "hi")
              0 initial_state (repeat 97%N 5000)) as (_ & Hnone & _).
  - split; [reflexivity |]. left. repeat split; reflexivity.
  - apply repeat_length.
  - exact Hnone.
Defined.

(** ** C9 and C10: the ingress gate *)

(** C9.  When the flood limiter rejects a message of a human author, the
    handler makes one call, the warning reply that deletes itself after
    five seconds, and returns: no call belongs to the audit log and the
    message is not handed to the command router.  The AI dictionary is as
    before. *)
Theorem C9_flood_rejection_halts (w : world) (m : message) (now : Q)
    (st : bot_state) :
  author_bot m = false ->
  fst (check_spam (author_id m) (user_message_times st)
         SPAM_TIME_WINDOW SPAM_MESSAGE_LIMIT now) = true ->
  snd (on_message w m now st)
  = [MessageReply
       ([128683%N] ++ lit " Slow down! You're sending messages too quickly.") 5]
  /\ forallb (fun e => negb (is_downstream e)) (snd (on_message w m now st)) = true
  /\ ~ In (ProcessCommands m) (snd (on_message w m now st))
  /\ user_ai_times (fst (on_message w m now st)) = user_ai_times st.
Proof.
  intros Hhuman Hspam. unfold on_message. rewrite Hhuman.
  destruct (check_spam (author_id m) (user_message_times st)
              SPAM_TIME_WINDOW SPAM_MESSAGE_LIMIT now) as [spam times].
  cbn [fst] in Hspam. subst spam. cbn [fst snd].
  split; [reflexivity |]. split; [reflexivity |]. split; [| reflexivity].
  intros [Habs | []]. discriminate Habs.
Qed.

(** The sixth message of user 7 within ten seconds. *)
Lemma C9_flood_rejection_halts_witness :
  snd (on_message quiet_world (plain_message false) 5 flooded_state)
  = [MessageReply
       ([128683%N] ++ lit " Slow down! You're sending messages too quickly.") 5].
Proof.
  apply (C9_flood_rejection_halts quiet_world (plain_message false) 5
           flooded_state); reflexivity.
Defined.

(** C10.  A message whose author is a bot account makes the handler return
    at once: both dictionaries are as before and no call is made, so the
    flood limiter is not consulted, nothing is logged and no command is
    processed, whatever the world, the clock and the stored history are. *)
Theorem C10_bot_author_bypasses_gate (w : world) (m : message) (now : Q)
    (st : bot_state) :
  author_bot m = true ->
  on_message w m now st = (st, [])
  /\ forall (w' : world) (now' : Q),
       on_message w' m now' st = on_message w m now st.
Proof.
  intros Hbot. unfold on_message. rewrite Hbot. split; reflexivity.
Qed.

(** A bot account writes to a flooded state. *)
Lemma C10_bot_author_bypasses_gate_witness :
  on_message quiet_world (plain_message true) 5 flooded_state
  = (flooded_state, []).
Proof.
  apply (C10_bot_author_bypasses_gate quiet_world (plain_message true) 5
           flooded_state). reflexivity.
Defined.

(** ** Runs of the model on concrete inputs *)

(** A message of a human author that passes the limiter is logged and then
    handed to the command router. *)
Example accepted_message_is_processed :
  snd (on_message quiet_world (plain_message false) 0 initial_state)
  = [ GetOrCreateLogsChannel {| guild_id := 1; guild_name := lit "home" |};
      ProcessCommands (plain_message false) ].
Proof. reflexivity. Qed.

(** The fourth AI request of a user within a minute is throttled. *)
Example fourth_request_is_throttled :
  let after3 :=
    {| user_message_times := ∅;
       user_ai_times :=
         snd (run_checks AI_TIME_WINDOW AI_MESSAGE_LIMIT ∅
                [(7%Z, 0%Q); (7%Z, 1%Q); (7%Z, 2%Q)]) |} in
  snd (ai_command quiet_world 7 (lit "chatgpt") (lit "hi") 3 after3)
  = [CtxSend
       ([128683%N] ++ lit " You're making too many AI requests. Please wait a minute.")
       true].
Proof. reflexivity. Qed.

(** A first request that OpenAI answers: the answer is not delivered. *)
Example answered_request :
  snd (ai_command quiet_world 7 (lit "ChatGPT") (lit "hello") 0 initial_state)
  = [ CtxDefer;
      OpenAICreate (lit "gpt-4o-mini") (lit "hello") 1000;
      LoggerError
        (lit "AI request error: 'Context' object has no attribute 'followup'");
      Escapes (lit "'Context' object has no attribute 'followup'") ].
Proof. reflexivity. Qed.


(** * Further properties of the code *)

(** ** [check_spam] over histories *)

Section Histories.
Variables (W : Q) (L : Z).

Lemma check_spam_agree k d1 d2 now :
  d1 !! k = d2 !! k ->
  fst (check_spam k d1 W L now) = fst (check_spam k d2 W L now)
  /\ snd (check_spam k d1 W L now) !! k = snd (check_spam k d2 W L now) !! k.
Proof.
  intros Heq. split.
  - unfold check_spam. cbn [fst]. by rewrite Heq.
  - rewrite !check_spam_stored. by rewrite Heq.
Qed.

Lemma run_checks_agree k calls : forall d1 d2,
  d1 !! k = d2 !! k ->
  snd (run_checks W L d1 calls) !! k
  = snd (run_checks W L d2 (List.filter (fun c => Z.eqb (fst c) k) calls)) !! k.
Proof.
  induction calls as [| [k' now] rest IH]; intros d1 d2 Heq; [exact Heq |].
  cbn [List.filter fst]. destruct (Z.eqb_spec k' k) as [-> | Hne].
  - rewrite !run_checks_cons. cbn [snd]. apply IH.
    by apply check_spam_agree.
  - rewrite run_checks_cons. cbn [snd]. apply IH.
    by rewrite check_spam_frame.
Qed.

Lemma times_for_own k calls :
  times_for k (List.filter (fun c => Z.eqb (fst c) k) calls) = times_for k calls.
Proof.
  unfold times_for. f_equal.
  induction calls as [| [k' now] rest IH]; [reflexivity |].
  cbn [List.filter fst]. destruct (Z.eqb_spec k' k) as [-> | Hne].
  - cbn [List.filter fst]. rewrite Z.eqb_refl. by rewrite IH.
  - exact IH.
Qed.

(** The stored list of a key is made of readings of its own calls, in call
    order. *)
Lemma stored_sublist_of_calls k calls : forall d,
  sublist (default [] (snd (run_checks W L d calls) !! k))
          (default [] (d !! k) ++ times_for k calls).
Proof.
  induction calls as [| [k' now] rest IH]; intros d.
  - cbn. by rewrite app_nil_r.
  - rewrite run_checks_cons, times_for_cons. cbn [snd].
    etrans; [apply IH |]. destruct (Z.eqb_spec k' k) as [-> | Hne].
    + rewrite check_spam_stored.
      change (sublist
                ((List.filter (fun t => Qltb (now - t) W) (default [] (d !! k))
                    ++ [now]) ++ times_for k rest)
                (default [] (d !! k) ++ now :: times_for k rest)).
      rewrite <- app_assoc.
      apply sublist_app; [apply filter_sublist | reflexivity].
    + by rewrite check_spam_frame.
Qed.

Lemma filter_preserves_sublist (f : Q -> bool) (l1 l2 : list Q) :
  sublist l1 l2 -> sublist (List.filter f l1) (List.filter f l2).
Proof.
  induction 1 as [| x l1 l2 _ IH | x l1 l2 _ IH]; cbn.
  - constructor.
  - destruct (f x); [by constructor | exact IH].
  - destruct (f x); [by constructor | exact IH].
Qed.

Lemma chronological_bound k now calls : forall t0,
  chronological t0 (calls ++ [(k, now)]) ->
  (t0 <= now)%Q /\ Forall (fun c => (snd c <= now)%Q) calls.
Proof.
  induction calls as [| [k' t] rest IH]; intros t0 Hchron.
  - cbn in Hchron. split; [tauto | constructor].
  - cbn [app chronological] in Hchron. destruct Hchron as [Ht0 Hrest].
    destruct (IH t Hrest) as [Ht Hall]. split; [lra |].
    constructor; [exact Ht | exact Hall].
Qed.

(** Pruning at an earlier reading removes nothing that pruning at a later
    one would keep. *)
Lemma prune_twice (t now : Q) (s : list Q) :
  (t <= now)%Q ->
  List.filter (fun x => Qltb (now - x) W) (List.filter (fun x => Qltb (t - x) W) s)
  = List.filter (fun x => Qltb (now - x) W) s.
Proof.
  intros Hle. induction s as [| x s IH]; [reflexivity |].
  cbn [List.filter]. destruct (Qltb (t - x) W) eqn:Ht.
  - cbn [List.filter]. by rewrite IH.
  - rewrite IH. destruct (Qltb (now - x) W) eqn:Hnow; [| reflexivity].
    apply Qltb_lt in Hnow. apply Qltb_ge in Ht. lra.
Qed.

Lemma live_stored_is_live_calls k now calls : forall d,
  Forall (fun c => (snd c <= now)%Q) calls ->
  List.filter (fun x => Qltb (now - x) W)
    (default [] (snd (run_checks W L d calls) !! k))
  = List.filter (fun x => Qltb (now - x) W)
      (default [] (d !! k) ++ times_for k calls).
Proof.
  induction calls as [| [k' t] rest IH]; intros d Hall.
  - cbn. by rewrite app_nil_r.
  - apply Forall_cons in Hall as [Ht Hrest]. cbn [snd] in Ht.
    rewrite run_checks_cons, times_for_cons. cbn [snd].
    rewrite IH by exact Hrest. destruct (Z.eqb_spec k' k) as [-> | Hne].
    + rewrite check_spam_stored.
      change (default []
                (Some (List.filter (fun t0 => Qltb (t - t0) W) (default [] (d !! k))
                         ++ [t])))
        with (List.filter (fun t0 => Qltb (t - t0) W) (default [] (d !! k)) ++ [t]).
      rewrite <- app_assoc, !List.filter_app, prune_twice by exact Ht.
      change (t :: times_for k rest) with ([t] ++ times_for k rest).
      by rewrite List.filter_app.
    + by rewrite check_spam_frame.
Qed.

Lemma prune_as_filter (now : Q) (s : list Q) :
  List.filter (fun x => Qltb (now - x) W) s = filter (fun t => (now - t < W)%Q) s.
Proof.
  induction s as [| t s IH]; [reflexivity |].
  cbn [List.filter]. destruct (Qltb (now - t) W) eqn:Hlt.
  - rewrite filter_cons_True by (by apply Qltb_lt). by rewrite IH.
  - rewrite filter_cons_False; [exact IH |].
    apply Qltb_ge in Hlt. lra.
Qed.

End Histories.

(** X1.  What the limiter answers to a key, and what it stores for it,
    does not depend on the calls made for other keys: dropping them from
    the history changes neither. *)
Theorem X1_other_keys_do_not_matter (W : Q) (L : Z) (d : gmap Z (list Q))
    (calls : list (Z * Q)) (k : Z) :
  let own := List.filter (fun c => Z.eqb (fst c) k) calls in
  answers_for k (fst (run_checks W L d calls))
  = answers_for k (fst (run_checks W L d own))
  /\ snd (run_checks W L d calls) !! k = snd (run_checks W L d own) !! k.
Proof.
  intros own. split.
  - rewrite !answers_for_key. subst own. by rewrite times_for_own.
  - by apply run_checks_agree.
Qed.

(** X2.  With a clock that never runs backwards, after any history from
    the empty dictionary the check of key [k] at [now] is rejected exactly
    when the calls for [k] less than [W] seconds old, this one included, are
    more than [L]; and what is stored is those calls, in order. *)
Theorem X2_sliding_window_exact (W : Q) (L : Z) (calls : list (Z * Q))
    (t0 : Q) (k : Z) (now : Q) :
  chronological t0 (calls ++ [(k, now)]) ->
  let recent :=
    filter (fun t => (now - t < W)%Q) (times_for k calls) in
  let d := snd (run_checks W L ∅ calls) in
  fst (check_spam k d W L now) = (L <? Z.of_nat (length recent) + 1)%Z
  /\ snd (check_spam k d W L now) !! k = Some (recent ++ [now]).
Proof.
  intros Hchron recent d.
  destruct (chronological_bound k now calls t0 Hchron) as [_ Hall].
  assert (Hrecent :
    List.filter (fun x => Qltb (now - x) W) (default [] (d !! k)) = recent).
  { subst d recent. rewrite (live_stored_is_live_calls W L k now calls ∅ Hall).
    rewrite lookup_empty. cbn [default app]. apply prune_as_filter. }
  split.
  - unfold check_spam. cbn [fst]. rewrite Hrecent, length_app. cbn [length].
    f_equal. lia.
  - rewrite check_spam_stored. by rewrite Hrecent.
Qed.

(** Calls of user 1 at 0, 4 and 12, one of user 2 in between: at reading
    13 only the calls at 4 and 12 are less than ten seconds old. *)
Lemma X2_sliding_window_exact_witness :
  snd (check_spam 1
         (snd (run_checks 10 2 ∅
                 [(1%Z, 0%Q); (1%Z, 4%Q); (2%Z, 5%Q); (1%Z, 12%Q)]))
         10 2 13) !! 1%Z
  = Some [4%Q; 12%Q; 13%Q].
Proof.
  destruct (X2_sliding_window_exact 10 2
              [(1%Z, 0%Q); (1%Z, 4%Q); (2%Z, 5%Q); (1%Z, 12%Q)] 0 1 13)
    as [_ Hstored].
  - cbn. unfold Qle; cbn. repeat split; lia.
  - rewrite Hstored. reflexivity.
Defined.

(** X3.  Whatever the clock does, a call is rejected only if at least [L]
    earlier calls for the same key were made less than [W] seconds before
    it: nobody is refused for calls made by others or made long ago. *)
Theorem X3_rejection_needs_recent_calls (W : Q) (L : Z) (calls : list (Z * Q))
    (k : Z) (now : Q) :
  fst (check_spam k (snd (run_checks W L ∅ calls)) W L now) = true ->
  (L <= Z.of_nat
          (length (filter (fun t => (now - t < W)%Q) (times_for k calls))))%Z.
Proof.
  intros Hspam. unfold check_spam in Hspam. cbn [fst] in Hspam.
  apply Z.ltb_lt in Hspam. rewrite length_app in Hspam. cbn [length] in Hspam.
  pose proof (stored_sublist_of_calls W L k calls ∅) as Hsub.
  rewrite lookup_empty in Hsub. cbn [default app] in Hsub.
  apply (filter_preserves_sublist (fun x => Qltb (now - x) W)) in Hsub.
  apply sublist_length in Hsub.
  rewrite !prune_as_filter in Hsub. rewrite prune_as_filter in Hspam. lia.
Qed.

(** Two calls of user 1 within ten seconds against limit 2: the third is
    rejected, and two recent calls are indeed on record. *)
Lemma X3_rejection_needs_recent_calls_witness :
  (2 <= Z.of_nat
          (length (filter (fun t => (5 - t < 10)%Q)
                     (times_for 1 [(1%Z, 0%Q); (1%Z, 1%Q)]))))%Z.
Proof.
  apply (X3_rejection_needs_recent_calls 10 2 [(1%Z, 0%Q); (1%Z, 1%Q)] 1 5).
  reflexivity.
Defined.

(** X4.  No key is ever removed from the dictionary: after any history the
    keys are those present before together with every key that was
    checked. *)
Theorem X4_keys_are_never_evicted (W : Q) (L : Z) (calls : list (Z * Q))
    (d : gmap Z (list Q)) :
  dom (snd (run_checks W L d calls))
  = dom d ∪ list_to_set (List.map fst calls).
Proof.
  revert d. induction calls as [| [k now] rest IH]; intros d.
  - cbn. by rewrite (right_id_L ∅ (∪)).
  - rewrite run_checks_cons. cbn [snd List.map fst]. rewrite IH.
    unfold check_spam. cbn [snd]. rewrite dom_insert_L, list_to_set_cons.
    rewrite (comm_L (∪) {[k]} (dom d)). by rewrite (assoc_L (∪)).
Qed.

(** ** [ai_command]: the paths not covered so far *)

Lemma ai_command_throttled (w : world) (author_id : Z) (ai_model prompt : str)
    (now : Q) (st : bot_state) :
  lower ai_model = lit "chatgpt" \/ lower ai_model = lit "gemini" ->
  fst (check_spam author_id (user_ai_times st)
         AI_TIME_WINDOW AI_MESSAGE_LIMIT now) = true ->
  snd (ai_command w author_id ai_model prompt now st)
  = [CtxSend
       ([128683%N] ++ lit " You're making too many AI requests. Please wait a minute.")
       true].
Proof.
  intros Hknown Hspam. unfold ai_command.
  rewrite (proj2 (known_selector _) Hknown). cbn [negb].
  destruct (check_spam author_id (user_ai_times st)
              AI_TIME_WINDOW AI_MESSAGE_LIMIT now) as [spam times].
  cbn [fst] in Hspam. subst spam. reflexivity.
Qed.

(** X5.  A request with a known selector is counted as soon as it is
    checked, whatever happens next (throttled, backend unavailable, answer
    or failure): the dictionary of the flood limiter is as before, the
    author's list in the AI dictionary ends with [now] behind the entries
    still inside the minute, and the lists of other authors are as before.
    In particular a request for a backend without credential uses up a slot
    of the author's budget. *)
Theorem X5_known_request_is_counted (w : world) (author_id : Z)
    (ai_model prompt : str) (now : Q) (st : bot_state) :
  lower ai_model = lit "chatgpt" \/ lower ai_model = lit "gemini" ->
  let st' := fst (ai_command w author_id ai_model prompt now st) in
  user_message_times st' = user_message_times st
  /\ user_ai_times st' !! author_id
     = Some (filter (fun t => (now - t < AI_TIME_WINDOW)%Q)
               (default [] (user_ai_times st !! author_id)) ++ [now])
  /\ (forall other : Z, other <> author_id ->
        user_ai_times st' !! other = user_ai_times st !! other).
Proof.
  intros Hknown st'. subst st'.
  rewrite (ai_command_state w author_id ai_model prompt now st Hknown).
  cbn [user_message_times user_ai_times].
  split; [reflexivity |]. split.
  - rewrite check_spam_stored. by rewrite prune_as_filter.
  - intros other Hne. by apply check_spam_frame.
Qed.

(** A request for Gemini, which [quiet_world] has no key for, is counted. *)
Lemma X5_known_request_is_counted_witness :
  user_ai_times
    (fst (ai_command quiet_world 7 (lit "Gemini") (lit "hi") 3 initial_state))
    !! 7%Z
  = Some [3%Q].
Proof.
  destruct (X5_known_request_is_counted quiet_world 7 (lit "Gemini") (lit "hi") 3
              initial_state) as (_ & Hstored & _).
  - by right.
  - rewrite Hstored. reflexivity.
Defined.

(** X6.  When the AI limiter rejects a request with a known selector, the
    command makes one call, the ephemeral throttle notice: nothing is
    deferred and no backend is called, whatever the credentials are. *)
Theorem X6_throttled_request (w : world) (author_id : Z)
    (ai_model prompt : str) (now : Q) (st : bot_state) :
  lower ai_model = lit "chatgpt" \/ lower ai_model = lit "gemini" ->
  fst (check_spam author_id (user_ai_times st)
         AI_TIME_WINDOW AI_MESSAGE_LIMIT now) = true ->
  snd (ai_command w author_id ai_model prompt now st)
  = [CtxSend
       ([128683%N] ++ lit " You're making too many AI requests. Please wait a minute.")
       true]
  /\ forall w' : world,
       snd (ai_command w' author_id ai_model prompt now st)
       = snd (ai_command w author_id ai_model prompt now st).
Proof.
  intros Hknown Hspam. split.
  - by apply ai_command_throttled.
  - intros w'. by rewrite !ai_command_throttled.
Qed.

(** The fourth request of user 7 within a minute. *)
Lemma X6_throttled_request_witness :
  snd (ai_command quiet_world 7 (lit "chatgpt") (lit "hi") 3
         {| user_message_times := ∅;
            user_ai_times :=
              snd (run_checks AI_TIME_WINDOW AI_MESSAGE_LIMIT ∅
                     [(7%Z, 0%Q); (7%Z, 1%Q); (7%Z, 2%Q)]) |})
  = [CtxSend
       ([128683%N] ++ lit " You're making too many AI requests. Please wait a minute.")
       true].
Proof.
  apply (X6_throttled_request quiet_world 7 (lit "chatgpt") (lit "hi") 3).
  - by left.
  - reflexivity.
Defined.

(** ** [ai_command]: the shape of every run *)

(** X9.  Every run of the command, whatever its arguments, the state and
    the world are, has one of two shapes.  Either it is a single ephemeral
    notice and nothing else: nothing is deferred and no backend is called.
    Or it is the acknowledgement, then exactly one backend call, which
    carries the prompt unchanged to the model of the selected backend, then
    one line of the error log, then the [AttributeError] of [ctx.followup]
    leaving the command.  In no run does a follow-up message go out: what a
    backend returns never reaches the caller, and an acknowledgement is
    never followed up. *)
Theorem X9_shape_of_every_run (w : world) (author_id : Z)
    (ai_model prompt : str) (now : Q) (st : bot_state) :
  let tr := snd (ai_command w author_id ai_model prompt now st) in
  ((exists notice : str, tr = [CtxSend notice true])
   \/ (exists (call : event) (line : str),
         tr = [CtxDefer; call; LoggerError line; Escapes no_followup]
         /\ ((lower ai_model = lit "chatgpt"
              /\ call = OpenAICreate (lit "gpt-4o-mini") prompt 1000)
             \/ (lower ai_model = lit "gemini"
                 /\ call = GeminiGenerate (lit "gemini-1.5-flash") prompt))))
  /\ followups tr = [].
Proof.
  intros tr. subst tr.
  destruct (decide (lower ai_model = lit "chatgpt")) as [Hc | Hc];
    [| destruct (decide (lower ai_model = lit "gemini")) as [Hg | Hg]].
  3: { rewrite ai_command_unknown by assumption.
       split; [left; by eexists | reflexivity]. }
  all: destruct (fst (check_spam author_id (user_ai_times st)
                        AI_TIME_WINDOW AI_MESSAGE_LIMIT now)) eqn:Hspam.
  all: try (rewrite ai_command_throttled by auto;
            split; [left; by eexists | reflexivity]).
  - rewrite (ai_command_chatgpt w author_id ai_model prompt now st Hc Hspam).
    destruct (truthy (OPENAI_API_KEY w));
      [| split; [left; by eexists | reflexivity]].
    split; [| reflexivity]. right. eexists _, _.
    split; [reflexivity |]. by left.
  - rewrite (ai_command_gemini w author_id ai_model prompt now st Hg Hspam).
    destruct (truthy (GEMINI_API_KEY w));
      [| split; [left; by eexists | reflexivity]].
    split; [| reflexivity]. right. eexists _, _.
    split; [reflexivity |]. by right.
Qed.

(** ** [info_command] and [ai_command] agree on what is available *)

(** X10.  The status lines of [/info] and the availability check of [/ai]
    never disagree: for a request that passes the limiter, the backend is
    reached exactly when [/info] lists it with the check mark, and the
    request is turned down as unavailable exactly when [/info] lists it with
    the cross. *)
Theorem X10_info_agrees_with_ai (w : world) (author_id : Z)
    (ai_model prompt : str) (now : Q) (st : bot_state) (name : str) :
  fst (check_spam author_id (user_ai_times st)
         AI_TIME_WINDOW AI_MESSAGE_LIMIT now) = false ->
  (lower ai_model = lit "chatgpt" /\ name = lit " ChatGPT")
  \/ (lower ai_model = lit "gemini" /\ name = lit " Gemini") ->
  let tr := snd (ai_command w author_id ai_model prompt now st) in
  (In ([9989%N] ++ name) (Commands.ai_status w)
   <-> existsb is_backend_call tr = true)
  /\ (In ([10060%N] ++ name) (Commands.ai_status w)
      <-> tr = [CtxSend ([10060%N] ++ name ++ lit " is not available (API key missing).") true]).
Proof.
  intros Hadmit Hsel tr. subst tr. unfold Commands.ai_status.
  destruct Hsel as [[Hm ->] | [Hm ->]].
  - rewrite (ai_command_chatgpt w author_id ai_model prompt now st Hm Hadmit).
    destruct (truthy (OPENAI_API_KEY w)) eqn:Hkey.
    + rewrite (bool_decide_eq_true_2 _ (proj2 (openai_client_set w) Hkey)).
      split; split; try (intros _; reflexivity); try discriminate.
      * intros _. by left.
      * destruct (truthy (GEMINI_API_KEY w));
          intros [Hin | [Hin | []]]; discriminate Hin.
    + rewrite (bool_decide_eq_false_2 (is_Some (openai_client w)))
        by (rewrite openai_client_set, Hkey; discriminate).
      split; split; try (intros _; reflexivity); try discriminate.
      * destruct (truthy (GEMINI_API_KEY w));
          intros [Hin | [Hin | []]]; discriminate Hin.
      * intros _. by left.
  - rewrite (ai_command_gemini w author_id ai_model prompt now st Hm Hadmit).
    destruct (truthy (GEMINI_API_KEY w)) eqn:Hkey.
    + split; split; try (intros _; reflexivity); try discriminate.
      * intros _. right. by left.
      * destruct (bool_decide (is_Some (openai_client w)));
          intros [Hin | [Hin | []]]; discriminate Hin.
    + split; split; try (intros _; reflexivity); try discriminate.
      * destruct (bool_decide (is_Some (openai_client w)));
          intros [Hin | [Hin | []]]; discriminate Hin.
      * intros _. right. by left.
Qed.

(** [quiet_world] has an OpenAI key: [/info] shows the check mark, and a
    first request reaches the backend. *)
Lemma X10_info_agrees_with_ai_witness :
  In ([9989%N] ++ lit " ChatGPT") (Commands.ai_status quiet_world)
  <-> existsb is_backend_call
        (snd (ai_command quiet_world 7 (lit "chatgpt") (lit "hi") 0 initial_state))
      = true.
Proof.
  destruct (X10_info_agrees_with_ai quiet_world 7 (lit "chatgpt") (lit "hi") 0
              initial_state (lit " ChatGPT")) as [Hreach _].
  - reflexivity.
  - left. split; reflexivity.
  - exact Hreach.
Defined.


(** ** [on_message]: what happens to an admitted message *)

Lemma on_message_state (w : world) (m : message) (now : Q) (st : bot_state) :
  fst (on_message w m now st)
  = if author_bot m then st
    else {| user_message_times :=
              snd (check_spam (author_id m) (user_message_times st)
                     SPAM_TIME_WINDOW SPAM_MESSAGE_LIMIT now);
            user_ai_times := user_ai_times st |}.
Proof.
  unfold on_message. destruct (author_bot m); [reflexivity |].
  destruct (check_spam (author_id m) (user_message_times st)
              SPAM_TIME_WINDOW SPAM_MESSAGE_LIMIT now) as [spam times].
  by destruct spam.
Qed.

Lemma on_message_rejected (w : world) (m : message) (now : Q) (st : bot_state) :
  author_bot m = false ->
  fst (check_spam (author_id m) (user_message_times st)
         SPAM_TIME_WINDOW SPAM_MESSAGE_LIMIT now) = true ->
  snd (on_message w m now st)
  = [MessageReply
       ([128683%N] ++ lit " Slow down! You're sending messages too quickly.") 5].
Proof.
  intros Hhuman Hspam. unfold on_message. rewrite Hhuman.
  destruct (check_spam (author_id m) (user_message_times st)
              SPAM_TIME_WINDOW SPAM_MESSAGE_LIMIT now) as [spam times].
  cbn [fst] in Hspam. by subst spam.
Qed.

(** The calls of an admitted message: those of the audit log, then the
    hand-over to the command router. *)
Lemma on_message_admitted (w : world) (m : message) (now : Q) (st : bot_state) :
  author_bot m = false ->
  fst (check_spam (author_id m) (user_message_times st)
         SPAM_TIME_WINDOW SPAM_MESSAGE_LIMIT now) = false ->
  exists logging : list event,
    snd (on_message w m now st) = logging ++ [ProcessCommands m]
    /\ Run.processed logging = false
    /\ (forall c e,
          In (LogChannelSend c e) logging
          <-> exists g, message_guild m = Some g
                        /\ logs_channel w g = Some c /\ e = log_embed m)
    /\ (message_guild m = None -> logging = []).
Proof.
  intros Hhuman Hadmit. unfold on_message. rewrite Hhuman.
  destruct (check_spam (author_id m) (user_message_times st)
              SPAM_TIME_WINDOW SPAM_MESSAGE_LIMIT now) as [spam times].
  cbn [fst] in Hadmit. subst spam. cbn [snd].
  eexists. split; [reflexivity |].
  destruct (message_guild m) as [g |].
  - destruct (logs_channel w g) as [c0 |] eqn:Hchan.
    + split; [by destruct (log_channel_send w c0 (log_embed m)) |].
      split; [| discriminate]. intros c e. split.
      * intros [Hin | [Hin | Hin]]; [discriminate Hin | |].
        -- injection Hin as <- <-. by exists g.
        -- destruct (log_channel_send w c0 (log_embed m));
             [destruct Hin | |]; destruct Hin as [Hin | []]; discriminate Hin.
      * intros (g' & Hg & Hc & ->). injection Hg as <-.
        rewrite Hchan in Hc. injection Hc as <-. right. by left.
    + split; [reflexivity |]. split; [| discriminate]. intros c e. split.
      * intros [Hin | []]. discriminate Hin.
      * intros (g' & Hg & Hc & _). injection Hg as <-.
        rewrite Hchan in Hc. discriminate Hc.
  - split; [reflexivity |]. split; [| reflexivity]. intros c e. split.
    + intros [].
    + intros (g & Hg & _). discriminate Hg.
Qed.

(** X11.  A message is handed to the command router exactly when its
    author is not a bot and the flood limiter admits it.  When it is, the
    hand-over happens once and last, after whatever the audit log did: a
    missing logs channel, a refused post or a failing post do not stop
    it. *)
Theorem X11_admitted_message_is_processed (w : world) (m : message) (now : Q)
    (st : bot_state) :
  let admitted :=
    author_bot m = false
    /\ fst (check_spam (author_id m) (user_message_times st)
              SPAM_TIME_WINDOW SPAM_MESSAGE_LIMIT now) = false in
  (In (ProcessCommands m) (snd (on_message w m now st)) <-> admitted)
  /\ (admitted ->
      exists logging : list event,
        snd (on_message w m now st) = logging ++ [ProcessCommands m]
        /\ Run.processed logging = false).
Proof.
  intros admitted. subst admitted. split.
  - split.
    + intros Hin. destruct (author_bot m) eqn:Hbot.
      * unfold on_message in Hin. rewrite Hbot in Hin. destruct Hin.
      * split; [reflexivity |].
        destruct (fst (check_spam (author_id m) (user_message_times st)
                         SPAM_TIME_WINDOW SPAM_MESSAGE_LIMIT now)) eqn:Hspam;
          [| reflexivity].
        rewrite (on_message_rejected w m now st Hbot Hspam) in Hin.
        destruct Hin as [Hin | []]. discriminate Hin.
    + intros [Hhuman Hadmit].
      destruct (on_message_admitted w m now st Hhuman Hadmit) as (l & -> & _).
      apply in_or_app. right. by left.
  - intros [Hhuman Hadmit].
    destruct (on_message_admitted w m now st Hhuman Hadmit) as (l & Htr & Hno & _).
    by exists l.
Qed.

(** A first message in a guild without logs channel is processed. *)
Lemma X11_admitted_message_is_processed_witness :
  exists logging : list event,
    snd (on_message quiet_world (plain_message false) 0 initial_state)
    = logging ++ [ProcessCommands (plain_message false)]
    /\ Run.processed logging = false.
Proof.
  destruct (X11_admitted_message_is_processed quiet_world (plain_message false) 0
              initial_state) as [_ Hlast].
  apply Hlast. split; reflexivity.
Defined.

(** X12.  A post to the logs channel is made for a message exactly when the
    author is not a bot, the flood limiter admits the message, the message
    comes from a guild and that guild has a logs channel; what is posted is
    the embed of that message.  Direct messages are never logged and never
    cause a lookup of the logs channel. *)
Theorem X12_what_is_logged (w : world) (m : message) (now : Q) (st : bot_state)
    (c : Z) (e : embed) :
  (In (LogChannelSend c e) (snd (on_message w m now st))
   <-> author_bot m = false
       /\ fst (check_spam (author_id m) (user_message_times st)
                 SPAM_TIME_WINDOW SPAM_MESSAGE_LIMIT now) = false
       /\ exists g, message_guild m = Some g
                    /\ logs_channel w g = Some c /\ e = log_embed m)
  /\ (message_guild m = None ->
      forall g, ~ In (GetOrCreateLogsChannel g) (snd (on_message w m now st))).
Proof.
  destruct (author_bot m) eqn:Hbot.
  { unfold on_message. rewrite Hbot. cbn. split; [| tauto].
    split; [tauto | intros [Habs _]; discriminate Habs]. }
  destruct (fst (check_spam (author_id m) (user_message_times st)
                   SPAM_TIME_WINDOW SPAM_MESSAGE_LIMIT now)) eqn:Hspam.
  { rewrite (on_message_rejected w m now st Hbot Hspam). split.
    - split.
      + intros [Hin | []]. discriminate Hin.
      + intros (_ & Habs & _). discriminate Habs.
    - intros _ g [Hin | []]. discriminate Hin. }
  destruct (on_message_admitted w m now st Hbot Hspam)
    as (logging & -> & _ & Hlog & Hdm).
  split.
  - rewrite in_app_iff, Hlog. split.
    + intros [Hin | [Hin | []]]; [by repeat split | discriminate Hin].
    + intros (_ & _ & Hin). by left.
  - intros Hnone g. rewrite (Hdm Hnone). intros [Hin | []]. discriminate Hin.
Qed.

(** X13.  The description of the audit embed is never empty and never
    longer than 1900 characters: it is the first 1900 characters of the
    message text, or the placeholder when the message has no text.  The
    attachments field is present exactly when the message has
    attachments. *)
Theorem X13_audit_embed (m : message) :
  (1 <= length (description (log_embed m)) <= 1900)%nat
  /\ (content m <> [] -> description (log_embed m) = take 1900 (content m))
  /\ (content m = [] -> description (log_embed m) = lit "*[No text content]*")
  /\ (attachments_field (log_embed m) = None <-> attachments m = []).
Proof.
  unfold log_embed. cbn [description attachments_field].
  destruct (content m) as [| c text] eqn:Htext.
  - split; [vm_compute; lia |]. split; [congruence |]. split; [reflexivity |].
    by destruct (attachments m).
  - unfold slice. rewrite Nat.sub_0_r. cbn [drop].
    split; [rewrite length_take; cbn [length]; lia |].
    split; [reflexivity |]. split; [discriminate |].
    by destruct (attachments m).
Qed.

(** ** Runs of the handlers: each limiter sees its own traffic only *)

Lemma run_bot_cons (w : world) (st : bot_state) (inv : Run.invocation) (now : Q)
    (rest : list (Run.invocation * Q)) :
  Run.run_bot w st ((inv, now) :: rest)
  = (fst (Run.run_bot w (fst (Run.handle w inv now st)) rest),
     snd (Run.handle w inv now st)
       :: snd (Run.run_bot w (fst (Run.handle w inv now st)) rest)).
Proof.
  cbn [Run.run_bot]. destruct (Run.handle w inv now st) as [st' tr].
  cbn [fst snd]. by destruct (Run.run_bot w st' rest).
Qed.

(** X14.  After any run of messages and [/ai] requests, in any order, the
    dictionary of the flood limiter is what [check_spam] makes of the
    messages of human authors alone, with the flood parameters, and the
    dictionary of the AI limiter is what it makes of the requests with a
    known selector alone, with the AI parameters: the two limiters share no
    state, bots and refused selectors leave no trace, and no answer of a
    backend or of the platform has any influence on either. *)
Theorem X14_limiters_see_their_own_traffic (w : world) (st : bot_state)
    (invs : list (Run.invocation * Q)) :
  user_message_times (fst (Run.run_bot w st invs))
  = snd (run_checks SPAM_TIME_WINDOW SPAM_MESSAGE_LIMIT
           (user_message_times st) (Run.message_checks invs))
  /\ user_ai_times (fst (Run.run_bot w st invs))
     = snd (run_checks AI_TIME_WINDOW AI_MESSAGE_LIMIT
              (user_ai_times st) (Run.ai_checks invs)).
Proof.
  revert st. induction invs as [| [inv now] rest IH]; intros st;
    [split; reflexivity |].
  rewrite run_bot_cons. cbn [fst].
  destruct (IH (fst (Run.handle w inv now st))) as [IHm IHa].
  rewrite IHm, IHa. clear IH IHm IHa.
  destruct inv as [m | author_id ai_model prompt];
    cbn [Run.handle Run.message_checks Run.ai_checks].
  - rewrite on_message_state. destruct (author_bot m); [split; reflexivity |].
    rewrite run_checks_cons. split; reflexivity.
  - destruct (bool_decide (lower ai_model ∈ [lit "chatgpt"; lit "gemini"]))
      eqn:Hknown.
    + rewrite ai_command_state by (by apply known_selector).
      rewrite run_checks_cons. split; reflexivity.
    + assert (Hc : lower ai_model <> lit "chatgpt")
        by (intros Hc; rewrite (proj2 (known_selector _) (or_introl Hc)) in Hknown;
            discriminate Hknown).
      assert (Hg : lower ai_model <> lit "gemini")
        by (intros Hg; rewrite (proj2 (known_selector _) (or_intror Hg)) in Hknown;
            discriminate Hknown).
      rewrite ai_command_unknown by assumption. split; reflexivity.
Qed.

(** ** Runs of the handlers: a burst of messages *)

Section MessageBurst.
Variables (w : world) (author : Z).

(** Messages of one human author. *)
Local Abbreviation from_author :=
  (fun mt : message * Q => author_bot (fst mt) = false /\ author_id (fst mt) = author).

Local Abbreviation deliver :=
  (List.map (fun mt : message * Q => (Run.Message (fst mt), snd mt))).

Lemma processed_snoc (logging : list event) (m : message) :
  Run.processed (logging ++ [ProcessCommands m]) = true.
Proof.
  unfold Run.processed. rewrite existsb_app. cbn. by rewrite orb_true_r.
Qed.

(** The messages handed to the command router are those the limiter
    admits. *)
Lemma run_bot_messages (msgs : list (message * Q)) : forall st,
  Forall from_author msgs ->
  List.map Run.processed (snd (Run.run_bot w st (deliver msgs)))
  = key_answers SPAM_TIME_WINDOW SPAM_MESSAGE_LIMIT
      (default [] (user_message_times st !! author)) (List.map snd msgs).
Proof.
  induction msgs as [| [m now] rest IH]; intros st Hall; [reflexivity |].
  apply Forall_cons in Hall as [[Hhuman Hauthor] Hrest]. cbn [fst] in *.
  cbn [List.map fst snd]. rewrite run_bot_cons. cbn [snd List.map Run.handle].
  rewrite IH by exact Hrest. rewrite on_message_state, Hhuman.
  cbn [user_message_times key_answers]. rewrite Hauthor, check_spam_stored.
  f_equal.
  rewrite <- check_spam_answer, <- Hauthor.
  destruct (fst (check_spam (author_id m) (user_message_times st)
                   SPAM_TIME_WINDOW SPAM_MESSAGE_LIMIT now)) eqn:Hspam.
  - by rewrite (on_message_rejected w m now st Hhuman Hspam).
  - destruct (on_message_admitted w m now st Hhuman Hspam) as (l & -> & _).
    apply processed_snoc.
Qed.

End MessageBurst.

(** X15.  With the shipped flood parameters, when a human author sends
    messages that all fall in one span of ten seconds, and nothing stored
    for that author is less than ten seconds older than the start of the
    span, the first five messages are handed to the command router and every
    later one is not, whatever the messages contain and whatever the audit
    log does. *)
Theorem X15_sixth_message_is_refused (w : world) (st : bot_state) (author : Z)
    (s0 : Q) (msgs : list (message * Q)) (i : nat) :
  Forall (fun mt : message * Q =>
            author_bot (fst mt) = false /\ author_id (fst mt) = author) msgs ->
  Forall (in_span s0 SPAM_TIME_WINDOW) (List.map snd msgs) ->
  Forall (fun h => (h + SPAM_TIME_WINDOW <= s0)%Q)
    (default [] (user_message_times st !! author)) ->
  (i < length msgs)%nat ->
  List.map Run.processed
    (snd (Run.run_bot w st
            (List.map (fun mt : message * Q => (Run.Message (fst mt), snd mt)) msgs)))
    !! i
  = Some (i <? 5)%nat.
Proof.
  intros Hauthor Hspan Hold Hi.
  rewrite (run_bot_messages w author msgs st Hauthor).
  rewrite (key_answers_expired_history _ _ s0) by assumption.
  rewrite (key_answers_in_span _ _ s0)
    by (try assumption; try constructor; by rewrite length_map).
  f_equal. cbn [length Nat.add]. unfold SPAM_MESSAGE_LIMIT.
  destruct (Nat.ltb_spec i 5) as [Hlt | Hge].
  - apply Z.leb_le. lia.
  - apply Z.leb_gt. lia.
Qed.

(** Six messages of user 7 at readings 0 to 5: the sixth is refused. *)
Lemma X15_sixth_message_is_refused_witness :
  List.map Run.processed
    (snd (Run.run_bot quiet_world initial_state
            (List.map (fun mt : message * Q => (Run.Message (fst mt), snd mt))
               [ (plain_message false, 0%Q); (plain_message false, 1%Q);
                 (plain_message false, 2%Q); (plain_message false, 3%Q);
                 (plain_message false, 4%Q); (plain_message false, 5%Q) ])))
    !! 5%nat
  = Some false.
Proof.
  apply (X15_sixth_message_is_refused quiet_world initial_state 7 0
           [ (plain_message false, 0%Q); (plain_message false, 1%Q);
             (plain_message false, 2%Q); (plain_message false, 3%Q);
             (plain_message false, 4%Q); (plain_message false, 5%Q) ] 5).
  - repeat (apply List.Forall_cons; [split; reflexivity |]). apply List.Forall_nil.
  - cbn [List.map snd].
    repeat (apply List.Forall_cons; [unfold in_span, Qle, Qlt; cbn; lia |]).
    apply List.Forall_nil.
  - apply List.Forall_nil.
  - cbn. lia.
Defined.

(** ** Runs of the handlers: a burst of [/ai] requests *)

Section RequestBurst.
Variables (w : world) (author : Z).

Local Abbreviation by_author :=
  (fun r : (str * str) * Q =>
     lower (fst (fst r)) = lit "chatgpt" \/ lower (fst (fst r)) = lit "gemini").

Local Abbreviation request :=
  (List.map (fun r : (str * str) * Q =>
               (Run.AiCommand author (fst (fst r)) (snd (fst r)), snd r))).

Lemma admitted_is_not_throttled (ai_model prompt : str) (now : Q) (st : bot_state) :
  lower ai_model = lit "chatgpt" \/ lower ai_model = lit "gemini" ->
  Run.throttled (snd (ai_command w author ai_model prompt now st))
  = fst (check_spam author (user_ai_times st) AI_TIME_WINDOW AI_MESSAGE_LIMIT now).
Proof.
  intros Hknown.
  destruct (fst (check_spam author (user_ai_times st)
                   AI_TIME_WINDOW AI_MESSAGE_LIMIT now)) eqn:Hspam.
  - by rewrite ai_command_throttled.
  - destruct Hknown as [Hm | Hm].
    + rewrite (ai_command_chatgpt w author ai_model prompt now st Hm Hspam).
      by destruct (truthy (OPENAI_API_KEY w)).
    + rewrite (ai_command_gemini w author ai_model prompt now st Hm Hspam).
      by destruct (truthy (GEMINI_API_KEY w)).
Qed.

Lemma run_bot_requests (reqs : list ((str * str) * Q)) : forall st,
  Forall by_author reqs ->
  List.map (fun tr => negb (Run.throttled tr)) (snd (Run.run_bot w st (request reqs)))
  = key_answers AI_TIME_WINDOW AI_MESSAGE_LIMIT
      (default [] (user_ai_times st !! author)) (List.map snd reqs).
Proof.
  induction reqs as [| [[ai_model prompt] now] rest IH]; intros st Hall;
    [reflexivity |].
  apply Forall_cons in Hall as [Hknown Hrest]. cbn [fst snd] in Hknown.
  cbn [List.map fst snd]. rewrite run_bot_cons. cbn [snd List.map Run.handle].
  rewrite IH by exact Hrest. rewrite ai_command_state by exact Hknown.
  cbn [user_ai_times key_answers]. rewrite check_spam_stored.
  f_equal. rewrite <- check_spam_answer. f_equal.
  by apply admitted_is_not_throttled.
Qed.

End RequestBurst.

(** X16.  With the shipped AI parameters, when an author makes requests
    with known selectors that all fall in one span of sixty seconds, and
    nothing stored for that author is less than sixty seconds older than the
    start of the span, the first three requests pass the limiter and every
    later one gets the throttle notice and nothing else, whether the
    backends are available, answer or fail. *)
Theorem X16_fourth_request_is_throttled (w : world) (st : bot_state)
    (author : Z) (s0 : Q) (reqs : list ((str * str) * Q)) (i : nat) :
  Forall (fun r : (str * str) * Q =>
            lower (fst (fst r)) = lit "chatgpt"
            \/ lower (fst (fst r)) = lit "gemini") reqs ->
  Forall (in_span s0 AI_TIME_WINDOW) (List.map snd reqs) ->
  Forall (fun h => (h + AI_TIME_WINDOW <= s0)%Q)
    (default [] (user_ai_times st !! author)) ->
  (i < length reqs)%nat ->
  List.map Run.throttled
    (snd (Run.run_bot w st
            (List.map (fun r : (str * str) * Q =>
                         (Run.AiCommand author (fst (fst r)) (snd (fst r)), snd r))
               reqs)))
    !! i
  = Some (3 <=? i)%nat.
Proof.
  intros Hknown Hspan Hold Hi.
  pose proof (run_bot_requests w author reqs st Hknown) as Hrun.
  rewrite (key_answers_expired_history _ _ s0) in Hrun by assumption.
  apply (f_equal (fun l => l !! i)) in Hrun.
  rewrite (key_answers_in_span _ _ s0) in Hrun
    by (try assumption; try constructor; by rewrite length_map).
  cbn [length Nat.add] in Hrun. unfold AI_MESSAGE_LIMIT in Hrun.
  rewrite list_lookup_fmap in Hrun.
  change (List.map Run.throttled ?l) with (Run.throttled <$> l).
  rewrite list_lookup_fmap.
  destruct (snd (Run.run_bot w st _) !! i) as [tr |];
    cbn [fmap option_fmap option_map] in Hrun |- *; [| discriminate Hrun].
  injection Hrun as Hrun. f_equal.
  destruct (Nat.leb_spec 3 i) as [Hge | Hlt].
  - apply negb_false_iff. rewrite Hrun. apply Z.leb_gt. lia.
  - apply negb_true_iff. rewrite Hrun. apply Z.leb_le. lia.
Qed.

(** Four requests of user 7 at readings 0, 10, 20 and 30, for a backend
    without key among them: the fourth is throttled. *)
Lemma X16_fourth_request_is_throttled_witness :
  List.map Run.throttled
    (snd (Run.run_bot quiet_world initial_state
            (List.map (fun r : (str * str) * Q =>
                         (Run.AiCommand 7 (fst (fst r)) (snd (fst r)), snd r))
               [ (lit "chatgpt", lit "a", 0%Q); (lit "Gemini", lit "b", 10%Q);
                 (lit "CHATGPT", lit "c", 20%Q); (lit "chatgpt", lit "d", 30%Q) ])))
    !! 3%nat
  = Some true.
Proof.
  apply (X16_fourth_request_is_throttled quiet_world initial_state 7 0
           [ (lit "chatgpt", lit "a", 0%Q); (lit "Gemini", lit "b", 10%Q);
             (lit "CHATGPT", lit "c", 20%Q); (lit "chatgpt", lit "d", 30%Q) ] 3).
  - repeat (apply List.Forall_cons; [first [by left | by right] |]).
    apply List.Forall_nil.
  - cbn [List.map snd].
    repeat (apply List.Forall_cons; [unfold in_span, Qle, Qlt; cbn; lia |]).
    apply List.Forall_nil.
  - apply List.Forall_nil.
  - cbn. lia.
Defined.

(** ** The logs channel *)

Lemma utils_get_some (channels : list Channels.text_channel) (name : str)
    (c : Channels.text_channel) :
  Channels.utils_get channels name = Some c ->
  In c channels /\ Channels.channel_name c = name.
Proof.
  unfold Channels.utils_get. intros Hfind.
  apply find_some in Hfind as [Hin Hname]. split; [exact Hin |].
  by apply bool_decide_eq_true in Hname.
Qed.

Lemma utils_get_none (channels : list Channels.text_channel) (name : str) :
  Channels.utils_get channels name = None <->
  forall c, In c channels -> Channels.channel_name c <> name.
Proof.
  unfold Channels.utils_get. split.
  - intros Hfind c Hin Hname.
    pose proof (find_none _ _ Hfind c Hin) as Hno. cbn in Hno.
    rewrite bool_decide_eq_false in Hno. exact (Hno Hname).
  - intros Hall. destruct (List.find _ channels) as [c |] eqn:Hfind; [| reflexivity].
    apply find_some in Hfind as [Hin Hname].
    apply bool_decide_eq_true in Hname. destruct (Hall c Hin Hname).
Qed.

(** X17.  [get_or_create_logs_channel] asks the platform for a new channel
    only when the guild has no channel named [logs], and then once.  When
    there is one it is returned, no call is made and nothing is logged.
    The result is [None] exactly when there is none and the creation was
    refused or failed, and in that case exactly one error line is logged.
    [on_guild_join] makes the same calls. *)
Theorem X17_logs_channel_lookup (g : guild)
    (text_channels : list Channels.text_channel)
    (create : Channels.create_outcome) :
  let result := fst (Channels.get_or_create_logs_channel g text_channels create) in
  let calls := snd (Channels.get_or_create_logs_channel g text_channels create) in
  ((exists c, In c text_channels /\ Channels.channel_name c = lit "logs") ->
     calls = []
     /\ exists c, result = Some c
                  /\ In c text_channels /\ Channels.channel_name c = lit "logs")
  /\ ((forall c, In c text_channels -> Channels.channel_name c <> lit "logs") ->
      exists line,
        calls = [ Channels.CreateTextChannel (lit "logs") (lit "Bot message logs")
                    false true; line ]
        /\ match create with
           | Channels.Created c =>
               result = Some c /\ exists t, line = Channels.LogInfo t
           | _ => result = None /\ exists t, line = Channels.LogError t
           end)
  /\ (result = None <->
      (forall c, In c text_channels -> Channels.channel_name c <> lit "logs")
      /\ forall c, create <> Channels.Created c)
  /\ Channels.on_guild_join g text_channels create = calls.
Proof.
  intros result calls. subst result calls.
  unfold Channels.on_guild_join, Channels.get_or_create_logs_channel.
  destruct (Channels.utils_get text_channels (lit "logs")) as [c0 |] eqn:Hget.
  - destruct (utils_get_some _ _ _ Hget) as [Hin Hname].
    split; [intros _; split; [reflexivity | by exists c0] |].
    split; [intros Hall; destruct (Hall c0 Hin Hname) |].
    split; [| reflexivity]. split; [discriminate |].
    intros [Hall _]. destruct (Hall c0 Hin Hname).
  - pose proof (proj1 (utils_get_none _ _) Hget) as Hnone.
    split; [intros (c & Hin & Hname); destruct (Hnone c Hin Hname) |].
    split; [| split; [| reflexivity]].
    + intros _. destruct create as [c | | e]; eexists;
        (split; [reflexivity |]); split; try reflexivity; by eexists.
    + destruct create as [c | | e]; cbn [fst].
      * split; [discriminate |]. intros [_ Hnot]. destruct (Hnot c eq_refl).
      * split; [| reflexivity]. intros _. split; [exact Hnone | discriminate].
      * split; [| reflexivity]. intros _. split; [exact Hnone | discriminate].
Qed.

(** X18.  [logs_command] answers with exactly one reply, which is
    ephemeral and comes last.  Outside a guild it makes no other call, so
    nothing is created.  In a guild the reply shows the mention of the
    channel exactly when [get_or_create_logs_channel] returned one, and is
    the failure notice otherwise. *)
Theorem X18_logs_command_replies_once
    (ctx_guild : option (guild * list Channels.text_channel))
    (create : Channels.create_outcome) :
  exists (before : list Channels.call) (text : str),
    Channels.logs_command ctx_guild create = before ++ [Channels.Reply text true]
    /\ forallb (fun c => negb (Channels.is_reply c)) before = true
    /\ (ctx_guild = None -> before = [])
    /\ (forall g text_channels, ctx_guild = Some (g, text_channels) ->
          before = snd (Channels.get_or_create_logs_channel g text_channels create)
          /\ match fst (Channels.get_or_create_logs_channel g text_channels create) with
             | Some c =>
                 text = [9989%N] ++ lit " Logs channel: " ++ Channels.channel_mention c
             | None =>
                 text = [10060%N]
                          ++ lit " Could not create or access logs channel. Check bot permissions."
             end).
Proof.
  destruct ctx_guild as [[g text_channels] |].
  - unfold Channels.logs_command.
    destruct (Channels.get_or_create_logs_channel g text_channels create)
      as [result calls] eqn:Hlookup.
    assert (Hcalls : forallb (fun c => negb (Channels.is_reply c)) calls = true).
    { unfold Channels.get_or_create_logs_channel in Hlookup.
      destruct (Channels.utils_get text_channels (lit "logs"));
        [by injection Hlookup as <- <- |].
      destruct create; by injection Hlookup as <- <-. }
    destruct result as [c |]; eexists calls, _;
      (split; [reflexivity |]); (split; [exact Hcalls |]);
      (split; [discriminate |]); intros g' chans' Heq;
      injection Heq as <- <-; rewrite Hlookup; by split.
  - exists [], ([10060%N] ++ lit " This command can only be used in servers.").
    split; [reflexivity |]. split; [reflexivity |]. split; [reflexivity |].
    intros g chans Heq. discriminate Heq.
Qed.

(** ** [on_command_error] *)

(** X19.  [on_command_error] shows the user at most one message, always
    ephemeral, and none exactly for an unknown command.  It writes to the
    error log exactly for an error of another kind than the three it knows,
    and then what the user sees does not depend on the text of the error:
    the text goes to the log only. *)
Theorem X19_command_errors (error : Commands.command_error) :
  (length (Commands.shown (Commands.on_command_error error)) <= 1)%nat
  /\ (Commands.shown (Commands.on_command_error error) = []
      <-> error = Commands.CommandNotFound)
  /\ (forall text ephemeral,
        In (CtxSend text ephemeral) (Commands.on_command_error error) ->
        ephemeral = true)
  /\ ((exists line, In (LoggerError line) (Commands.on_command_error error))
      <-> exists text, error = Commands.OtherError text)
  /\ (forall text text',
        Commands.shown (Commands.on_command_error (Commands.OtherError text))
        = Commands.shown (Commands.on_command_error (Commands.OtherError text'))).
Proof.
  split; [by destruct error; cbn; lia |].
  split; [destruct error; cbn; split; (discriminate || reflexivity) |].
  split.
  - intros text ephemeral Hin.
    destruct error; cbn in Hin;
      repeat (destruct Hin as [Hin | Hin]; try discriminate Hin);
      try (by injection Hin); destruct Hin.
  - split; [| reflexivity]. split.
    + intros [line Hin]. destruct error as [| | param | text]; cbn in Hin;
        repeat (destruct Hin as [Hin | Hin]; try discriminate Hin);
        try destruct Hin.
      by exists text.
    + intros [text ->]. eexists. by left.
Qed.
